(** * SystemMonitor: the metrics collection and derivation pipeline

    A shallow embedding of [monitor.py].  One call of
    [get_detailed_system_data] reads the host through psutil, GPUtil, the
    [random] module and the clock; those answers are gathered in a record
    [Env], one field per query, each able to raise.  The collector's own
    attributes ([last_net_io], [last_disk_io], [last_call_time], the cached
    static facts) are the explicit state [SystemMonitor].

    Numbers.  Python [int] is [Z].  Python [float] is modelled by the
    rational it denotes: arithmetic is exact and the binary64 rounding of
    intermediate results is outside the model, as are infinities and NaN.
    [round(x, n)] rounds the exact value half-to-even, which is what CPython
    does on the exact value of a double.  An f-string that embeds a number
    is kept as its pieces ([VFStr]), the decimal rendering of a float being
    outside the model. *)

From Stdlib Require Import ZArith QArith Qround Qabs String Ascii List Lia Lqa Bool.
From stdpp Require Import gmap strings list.

Local Open Scope Z_scope.
Local Open Scope string_scope.

(** ** Python values *)

Inductive pynum : Type :=
| PInt (z : Z)
| PFloat (q : Q).

Inductive piece : Type :=
| Lit (s : string)
| Num (n : pynum).

Inductive pyval : Type :=
| VNone
| VNum (n : pynum)
| VStr (s : string)
| VFStr (ps : list piece).

Definition VInt (z : Z) : pyval := VNum (PInt z).
Definition VFloat (q : Q) : pyval := VNum (PFloat q).

(** The rational a number denotes. *)
Definition num_val (n : pynum) : Q :=
  match n with
  | PInt z => inject_Z z
  | PFloat q => q
  end.

(** ** Exceptions

    Every class below derives from [Exception]; [exn_msg] is [str(e)]. *)

Inductive exn_class : Type :=
| NoSuchProcess | AccessDenied | ZombieProcess
| TypeError | ValueError | AttributeError | OSError | ZeroDivisionError.

Record exn : Type := mkExn { exn_cls : exn_class; exn_msg : string }.

Inductive outcome (A : Type) : Type :=
| Returns (a : A)
| Raises (e : exn).
Arguments Returns {A} a.
Arguments Raises {A} e.

#[global] Instance outcome_ret : MRet outcome := fun _ a => Returns a.
#[global] Instance outcome_bind : MBind outcome := fun _ _ k m =>
  match m with
  | Returns a => k a
  | Raises e => Raises e
  end.

(** ** Arithmetic of the source *)

Local Open Scope Q_scope.

(** [a / b] on floats: raises on a zero divisor. *)
Definition py_div (a b : Q) : outcome Q :=
  if Qeq_bool b 0 then Raises (mkExn ZeroDivisionError "float division by zero")
  else Returns (a / b).

Definition Qlt_bool (a b : Q) : bool := negb (Qle_bool b a).

(** Nearest integer, ties to the even one. *)
Definition round_half_even (q : Q) : Z :=
  let f := Qfloor q in
  match Qcompare (q - inject_Z f) (1 # 2) with
  | Lt => f
  | Gt => (f + 1)%Z
  | Eq => if Z.even f then f else (f + 1)%Z
  end.

Definition pow10 (nd : nat) : positive := Pos.pow 10 (Pos.of_nat nd).

(** [round(q, nd)] for a float [q] and [nd >= 1]. *)
Definition py_round (q : Q) (nd : nat) : Q :=
  Qred (round_half_even (q * inject_Z (Zpos (pow10 nd))) # pow10 nd).

(** [round(n, nd)] keeps an [int] an [int] when [nd >= 0]. *)
Definition py_round_num (n : pynum) (nd : nat) : pynum :=
  match n with
  | PInt z => PInt z
  | PFloat q => PFloat (py_round q nd)
  end.

(** [int(q)]: truncation toward zero. *)
Definition py_int (q : Q) : Z := Z.quot (Qnum q) (Zpos (Qden q)).

(** [max(a, b)] and [min(a, b)] return the first argument unless the second
    is strictly larger (smaller); the winner keeps its own type. *)
Definition py_max (a b : pynum) : pynum :=
  if Qlt_bool (num_val a) (num_val b) then b else a.
Definition py_min (a b : pynum) : pynum :=
  if Qlt_bool (num_val b) (num_val a) then b else a.

Definition Qmax' (a b : Q) : Q := if Qlt_bool a b then b else a.

(** [float(v)]. *)
Definition py_float (v : pyval) : outcome Q :=
  match v with
  | VNum n => Returns (num_val n)
  | VNone => Raises (mkExn TypeError "float() argument must be a string or a real number, not 'NoneType'")
  | VStr _ | VFStr _ => Raises (mkExn ValueError "could not convert string to float")
  end.

(** [d.get(k, default)]. *)
Definition dict_get (d : gmap string pyval) (k : string) (default : pyval) : pyval :=
  match d !! k with
  | Some v => v
  | None => default
  end.

(** [d.update(e)]: the entries of [e] win. *)
Definition dict_update (d e : gmap string pyval) : gmap string pyval := e ∪ d.

(** [random.uniform(a, b)] is [a + (b - a) * random.random()]. *)
Definition uniform (a b u : Q) : Q := a + (b - a) * u.

(** [needle in hay] on strings. *)
Fixpoint py_in (needle hay : string) : bool :=
  String.prefix needle hay ||
  match hay with
  | EmptyString => false
  | String _ rest => py_in needle rest
  end.

(** ** What the host answers during one call *)

Record scputimes : Type :=
  { cpu_user : Q; cpu_system : Q; cpu_idle : Q; cpu_iowait : option Q }.

Record svmem : Type :=
  { vm_total : Z; vm_percent : Q; vm_used : Z; vm_available : Z;
    vm_cached : option Z; vm_shared : option Z }.

Record sswap : Type := { sw_percent : Q; sw_used : Z }.

Record GPU : Type := { load : Q; memoryUsed : Q; temperature : Q }.

Record shwtemp : Type := { label : string; current : Q }.

Record sfan : Type := { percent : option Q }.

Record sdiskio : Type := { read_bytes : Z; write_bytes : Z }.

Record snetio : Type :=
  { bytes_sent : Z; bytes_recv : Z; errin : Z; errout : Z }.

(** [proc.info] for the attributes [pid], [name], [cpu_percent]; psutil
    stores [None] for an attribute it was denied. *)
Record proc_info : Type :=
  { pid : Z; name : option string; cpu_percent : option Q }.

(** One field per query of the source.  A query asked twice in one call
    ([psutil.cpu_freq()], [psutil.boot_time()]) answers the same both times;
    [time.time()] has a field per call site.  Lists of which the source only
    takes [len] are given by their length.  [random_random k] and
    [random_randint k a b] are the results of the [k]-th draw of the call from
    the process-wide generator, as [random.random()] and as
    [random.randint(a, b)]. *)
Record Env : Type :=
  { time_time : Q;
    datetime_now : string;
    psutil_cpu_times_percent : outcome scputimes;
    psutil_cpu_percent : outcome Q;
    psutil_cpu_freq : outcome (option Q);
    psutil_cpu_count_logical : outcome (option Z);
    psutil_cpu_count_physical : outcome (option Z);
    psutil_virtual_memory : outcome svmem;
    psutil_swap_memory : outcome sswap;
    GPUtil : option (outcome (list GPU));
    psutil_sensors_temperatures : outcome (gmap string (list shwtemp));
    psutil_sensors_fans : outcome (list (string * list sfan));
    psutil_disk_io_counters : outcome sdiskio;
    psutil_net_io_counters : outcome snetio;
    psutil_net_connections : outcome nat;
    psutil_disk_partitions : outcome nat;
    psutil_pids : outcome nat;
    psutil_process_iter : outcome (list (outcome proc_info));
    time_time_uptime : Q;
    psutil_boot_time : outcome Q;
    psutil_users : outcome nat;
    psutil_num_fds : outcome Z;
    random_random : nat -> Q;
    random_randint : nat -> Z -> Z -> Z;
    platform_platform : string;
    platform_machine : string;
    platform_processor : string;
    platform_python_version : string;
    strftime : Q -> string }.

(** ** The collector and the monad of its methods *)

Record SystemMonitor : Type :=
  mkMonitor
  { last_net_io : snetio;
    last_disk_io : sdiskio;
    last_call_time : Q;
    system_boot_time : string;
    system_info : gmap string pyval }.

(** The collector together with the number of draws made so far. *)
Record World : Type := mkWorld { self : SystemMonitor; draws : nat }.

Definition M (A : Type) : Type := World -> outcome A * World.

#[global] Instance M_ret : MRet M := fun _ a w => (Returns a, w).
#[global] Instance M_bind : MBind M := fun _ _ k m w =>
  match m w with
  | (Returns a, w') => k a w'
  | (Raises e, w') => (Raises e, w')
  end.

Definition lift {A} (o : outcome A) : M A := fun w => (o, w).

Definition get_self : M SystemMonitor := fun w => (Returns (self w), w).

Definition set_last_disk_io (d : sdiskio) : M unit := fun w =>
  let s := self w in
  (Returns tt,
   mkWorld (mkMonitor (last_net_io s) d (last_call_time s)
                      (system_boot_time s) (system_info s)) (draws w)).

Definition set_last_net_io (n : snetio) : M unit := fun w =>
  let s := self w in
  (Returns tt,
   mkWorld (mkMonitor n (last_disk_io s) (last_call_time s)
                      (system_boot_time s) (system_info s)) (draws w)).

Definition set_last_call_time (t : Q) : M unit := fun w =>
  let s := self w in
  (Returns tt,
   mkWorld (mkMonitor (last_net_io s) (last_disk_io s) t
                      (system_boot_time s) (system_info s)) (draws w)).

(** [random.uniform(a, b)] and [random.randint(a, b)]: one draw each. *)
Definition random_uniform (env : Env) (a b : Q) : M Q := fun w =>
  (Returns (uniform a b (random_random env (draws w))),
   mkWorld (self w) (S (draws w))).

Definition randint (env : Env) (a b : Z) : M Z := fun w =>
  (Returns (random_randint env (draws w) a b),
   mkWorld (self w) (S (draws w))).

(** ** The methods of [SystemMonitor] *)

Definition GiB : Q := inject_Z (1024 ^ 3).
Definition MiB : Q := inject_Z (1024 ^ 2).

Definition _get_static_system_info (env : Env) (boot : string)
  : outcome (gmap string pyval) :=
  vm ← psutil_virtual_memory env;
  mret (<["Operating System" := VStr (platform_platform env)]>
       (<["System Architecture" := VStr (platform_machine env)]>
       (<["CPU Model (Sim)" :=
            VStr (if String.eqb (platform_processor env) ""
                  then "Unknown Processor" else platform_processor env)]>
       (<["Python Version" := VStr (platform_python_version env)]>
       (<["Total RAM (GB)" := VFloat (py_round (inject_Z (vm_total vm) / GiB) 2)]>
       (<["Boot Time" := VStr boot]> ∅)))))).

Definition __init__ (env : Env) : outcome SystemMonitor :=
  net ← psutil_net_io_counters env;
  disk ← psutil_disk_io_counters env;
  let now := time_time env in
  boot ← psutil_boot_time env;
  let boot_s := strftime env boot in
  info ← _get_static_system_info env boot_s;
  mret (mkMonitor net disk now boot_s info).

Definition opt_int (o : option Z) : pyval :=
  match o with
  | Some z => VInt z
  | None => VNone
  end.

Definition _get_cpu_data (env : Env) : outcome (gmap string pyval) :=
  cpu_times ← psutil_cpu_times_percent env;
  usage ← psutil_cpu_percent env;
  freq_test ← psutil_cpu_freq env;
  freq ← match freq_test with
         | Some _ =>
             f ← psutil_cpu_freq env;
             match f with
             | Some cur => mret (py_round (cur / 1000) 2)
             | None => Raises (mkExn AttributeError
                          "'NoneType' object has no attribute 'current'")
             end
         | None => mret 0
         end;
  logical ← psutil_cpu_count_logical env;
  physical ← psutil_cpu_count_physical env;
  mret (<["CPU Usage (%)" := VFloat usage]>
       (<["CPU Freq (GHz)" := VFloat freq]>
       (<["Logical Cores" := opt_int logical]>
       (<["Physical Cores" := opt_int physical]>
       (<["CPU User Time (%)" := VFloat (cpu_user cpu_times)]>
       (<["CPU System Time (%)" := VFloat (cpu_system cpu_times)]>
       (<["CPU Idle Time (%)" := VFloat (cpu_idle cpu_times)]>
       (<["CPU Iowait Time (%)" := VFloat (default 0 (cpu_iowait cpu_times))]>
        ∅)))))))).

Definition gb2 (bytes : Z) : pyval := VFloat (py_round (inject_Z bytes / GiB) 2).

Definition _get_memory_data (env : Env) : outcome (gmap string pyval) :=
  virtual_mem ← psutil_virtual_memory env;
  swap_mem ← psutil_swap_memory env;
  mret (<["Memory Usage (%)" := VFloat (vm_percent virtual_mem)]>
       (<["Used Memory (GB)" := gb2 (vm_used virtual_mem)]>
       (<["Available Memory (GB)" := gb2 (vm_available virtual_mem)]>
       (<["Cached Memory (GB)" :=
            match vm_cached virtual_mem with Some c => gb2 c | None => VFloat 0 end]>
       (<["Swap Usage (%)" := VFloat (sw_percent swap_mem)]>
       (<["Used Swap (GB)" := gb2 (sw_used swap_mem)]>
       (<["Shared Memory (GB)" :=
            match vm_shared virtual_mem with Some c => gb2 c | None => VFloat 0 end]>
        ∅))))))).

(** The value stored under a key, read back as a number for a test. *)
Definition dict_num (d : gmap string pyval) (k : string) : Q :=
  match d !! k with
  | Some (VNum n) => num_val n
  | _ => 0
  end.

Definition _get_gpu_data (env : Env) : M (gmap string pyval) :=
  let gpu_data : gmap string pyval :=
    <["GPU Usage (%)" := VFloat 0]>
    (<["GPU Memory (GB)" := VFloat 0]>
    (<["GPU Temp (°C)" := VFloat 0]> ∅)) in
  let gpu_data :=
    match GPUtil env with
    | Some (Returns (gpu :: _)) =>
        <["GPU Temp (°C)" := VFloat (py_round (temperature gpu) 1)]>
        (<["GPU Memory (GB)" := VFloat (py_round (memoryUsed gpu / 1024) 2)]>
        (<["GPU Usage (%)" := VFloat (py_round (load gpu * 100) 2)]> gpu_data))
    | Some (Returns []) => gpu_data
    | Some (Raises _) => gpu_data
    | None => gpu_data
    end in
  if Qeq_bool (dict_num gpu_data "GPU Usage (%)") 0 then
    usage ← random_uniform env (1 # 10) 5;
    temp ← random_uniform env 30 45;
    mret (<["GPU Temp (°C)" := VFloat (py_round temp 1)]>
         (<["GPU Usage (%)" := VFloat (py_round usage 2)]> gpu_data))
  else mret gpu_data.

Definition coretemp_max (entries : list shwtemp) : Q :=
  fold_left (fun cpu_temp entry =>
               if py_in "CPU" (label entry) || py_in "Core" (label entry)
               then Qmax' cpu_temp (current entry) else cpu_temp)
            entries 0.

Definition thermal_max (entries : list shwtemp) : Q :=
  fold_left (fun cpu_temp entry => Qmax' cpu_temp (current entry)) entries 0.

Definition fans_max (fans : list (string * list sfan)) : Q :=
  fold_left (fun acc kv =>
               fold_left (fun fan_speed_percent fan =>
                            match percent fan with
                            | Some p => Qmax' fan_speed_percent p
                            | None => fan_speed_percent
                            end)
                         (snd kv) acc)
            fans 0.

Definition _get_sensor_data (env : Env) : M (gmap string pyval) :=
  temps ← lift (psutil_sensors_temperatures env);
  let cpu_temp :=
    match temps !! "coretemp" with
    | Some entries => coretemp_max entries
    | None =>
        match temps !! "cpu_thermal" with
        | Some entries => thermal_max entries
        | None => 0
        end
    end in
  fans ← lift (psutil_sensors_fans env);
  let fan_speed_percent := fans_max fans in
  t ← (if Qlt_bool 0 cpu_temp then mret (py_round cpu_temp 1)
       else (u ← random_uniform env 35 60; mret (py_round u 1)));
  f ← (if Qlt_bool 0 fan_speed_percent then mret (py_round fan_speed_percent 1)
       else (u ← random_uniform env 30 60; mret (py_round u 1)));
  mret (<["CPU Temp (°C)" := VFloat t]> (<["Fan Speed (%)" := VFloat f]> ∅)).

(** [round((bytes_d / time_diff) / (1024**2), 2) if time_diff > 0 else 0.0],
    the expression the source writes once per counter. *)
Definition rate_mb (bytes_d : Z) (time_diff : Q) : outcome Q :=
  if Qlt_bool 0 time_diff then
    per_second ← py_div (inject_Z bytes_d) time_diff;
    mret (py_round (per_second / MiB) 2)
  else mret 0.

Definition bool_num (b : bool) : Q := if b then 1 else 0.

Definition _get_io_data (env : Env) (time_diff : Q) : M (gmap string pyval) :=
  current_disk_io ← lift (psutil_disk_io_counters env);
  s ← get_self;
  let read_bytes_d := (read_bytes current_disk_io - read_bytes (last_disk_io s))%Z in
  let write_bytes_d := (write_bytes current_disk_io - write_bytes (last_disk_io s))%Z in
  disk_read_rate_mb ← lift (rate_mb read_bytes_d time_diff);
  disk_write_rate_mb ← lift (rate_mb write_bytes_d time_diff);
  set_last_disk_io current_disk_io;;
  current_net_io ← lift (psutil_net_io_counters env);
  s ← get_self;
  let net_sent_bytes := (bytes_sent current_net_io - bytes_sent (last_net_io s))%Z in
  let net_recv_bytes := (bytes_recv current_net_io - bytes_recv (last_net_io s))%Z in
  net_sent_rate_mb ← lift (rate_mb net_sent_bytes time_diff);
  net_recv_rate_mb ← lift (rate_mb net_recv_bytes time_diff);
  set_last_net_io current_net_io;;
  connections ← lift (psutil_net_connections env);
  partitions ← lift (psutil_disk_partitions env);
  latency ← random_uniform env 2 20;
  mret (<["Disk Read Rate (MB/s)" := VFloat disk_read_rate_mb]>
       (<["Disk Write Rate (MB/s)" := VFloat disk_write_rate_mb]>
       (<["Net Sent (MB/s)" := VFloat net_sent_rate_mb]>
       (<["Net Received (MB/s)" := VFloat net_recv_rate_mb]>
       (<["Network Total Connections" := VInt (Z.of_nat connections)]>
       (<["Disk Total Partitions" := VInt (Z.of_nat partitions)]>
       (<["Network Packet Errors" := VInt (errin current_net_io + errout current_net_io)]>
       (<["Disk I/O Latency (Sim/ms)" :=
            VFloat (py_round
                      (latency * bool_num (Qlt_bool 0 (disk_read_rate_mb + disk_write_rate_mb)))
                      2)]>
        ∅)))))))).

(** *** Process state *)

Definition skipped (c : exn_class) : bool :=
  match c with
  | NoSuchProcess | AccessDenied | ZombieProcess => true
  | _ => false
  end.

(** The loop over [psutil.process_iter]: an entry whose [info] raises one of
    the three psutil errors is passed over, any other error leaves the loop. *)
Fixpoint readable (procs : list (outcome proc_info)) : outcome (list proc_info) :=
  match procs with
  | [] => mret []
  | Returns info :: rest => processes ← readable rest; mret (info :: processes)
  | Raises e :: rest => if skipped (exn_cls e) then readable rest else Raises e
  end.

(** [p.get('cpu_percent', 0)] as a sort key or an operand of [>]: [None]
    cannot be compared with a float. *)
Definition cpu_key (p : proc_info) : outcome Q :=
  match cpu_percent p with
  | Some c => mret c
  | None => Raises (mkExn TypeError
              "'<' not supported between instances of 'NoneType' and 'float'")
  end.

Fixpoint keyed (ps : list proc_info) : outcome (list (Q * proc_info)) :=
  match ps with
  | [] => mret []
  | p :: rest => k ← cpu_key p; ks ← keyed rest; mret ((k, p) :: ks)
  end.

(** [sorted(..., reverse=True)] is stable: among equal keys the earlier
    element stays first. *)
Fixpoint insert_desc (x : Q * proc_info) (l : list (Q * proc_info))
  : list (Q * proc_info) :=
  match l with
  | [] => [x]
  | y :: rest => if Qlt_bool (fst x) (fst y) then y :: insert_desc x rest
                 else x :: y :: rest
  end.

Definition sorted_desc (l : list (Q * proc_info)) : list (Q * proc_info) :=
  foldr insert_desc [] l.

Definition str_of_name (n : option string) : string :=
  match n with
  | Some s => s
  | None => "None"
  end.

(** The body of the [try] in [_get_process_data]: the value it binds to the
    local [top_cpu_proc], if it binds one. *)
Definition top_cpu_proc_try (env : Env) : outcome (option pyval) :=
  procs ← psutil_process_iter env;
  processes ← readable procs;
  match processes with
  | [] => mret None
  | _ :: _ =>
      ks ← keyed processes;
      match sorted_desc ks with
      | (c, p) :: _ =>
          if Qlt_bool 0 c
          then mret (Some (VFStr [Lit (str_of_name (name p)); Lit " (";
                                  Num (PFloat c); Lit "%)"]))
          else mret None
      | [] => mret None
      end
  end.

(** The source initialises [top_cpu_process], assigns the formatted string
    to [top_cpu_proc], and returns [top_cpu_process]. *)
Definition _get_process_data (env : Env) : outcome (gmap string pyval) :=
  running_processes ← psutil_pids env;
  let top_cpu_process := VStr "N/A" in
  let top_cpu_proc :=
    match top_cpu_proc_try env with
    | Returns v => v
    | Raises _ => None
    end in
  boot ← psutil_boot_time env;
  users ← psutil_users env;
  fds ← psutil_num_fds env;
  mret (<["Running Processes" := VInt (Z.of_nat running_processes)]>
       (<["Top CPU Process" := top_cpu_process]>
       (<["System Uptime (h)" :=
            VFloat (py_round ((time_time_uptime env - boot) / 3600) 2)]>
       (<["Login Users" := VInt (Z.of_nat users)]>
       (<["Open File Descriptors (Sim)" := VInt fds]> ∅))))).

(** *** Hexadecimal rendering *)

Definition hex_digit (d : Z) : ascii :=
  if (d <? 10)%Z then ascii_of_nat (48 + Z.to_nat d)
  else ascii_of_nat (87 + Z.to_nat d).

Fixpoint hex_digits (fuel : nat) (n : Z) (acc : string) : string :=
  match fuel with
  | O => acc
  | S fuel' =>
      let acc' := String (hex_digit (n mod 16)) acc in
      if (n / 16 =? 0)%Z then acc' else hex_digits fuel' (n / 16) acc'
  end.

Definition hex_magnitude (n : Z) : string :=
  hex_digits (S (Z.to_nat (Z.log2 n))) n "".

(** [hex(n)]. *)
Definition py_hex (n : Z) : string :=
  if (n <? 0)%Z then "-0x" ++ hex_magnitude (- n) else "0x" ++ hex_magnitude n.

(** [s[n:]]. *)
Fixpoint py_slice_from (n : nat) (s : string) : string :=
  match n, s with
  | O, _ => s
  | S _, EmptyString => EmptyString
  | S n', String _ rest => py_slice_from n' rest
  end.

Definition upper_char (c : ascii) : ascii :=
  let k := nat_of_ascii c in
  if (97 <=? k)%nat && (k <=? 122)%nat then ascii_of_nat (k - 32) else c.

(** [s.upper()] on ASCII text. *)
Fixpoint py_upper (s : string) : string :=
  match s with
  | EmptyString => EmptyString
  | String c rest => String (upper_char c) (py_upper rest)
  end.

(** *** Derived indicators *)

(** A value used as an operand of [*] and [+] with numbers. *)
Definition as_num (v : pyval) : outcome pynum :=
  match v with
  | VNum n => mret n
  | _ => Raises (mkExn TypeError "unsupported operand type(s)")
  end.

(** [z * 10] for an [int] or a [float]. *)
Definition times10 (n : pynum) : pynum :=
  match n with
  | PInt z => PInt (z * 10)
  | PFloat q => PFloat (q * 10)
  end.

Definition clamp_0_100 (x : Q) : pynum :=
  py_max (PInt 0) (py_min (PInt 100) (PFloat x)).

Definition integrity_of (active_load temp_c total_io : Q) : Q :=
  100 - (active_load * (2 # 10) + temp_c * (5 # 10) + total_io * (1 # 10)).

Definition hex_flow_magnitude_of (active_load temp_c total_io : Q) : Z :=
  py_int ((active_load + total_io) * 1000000 + temp_c * 1000).

Definition hex_energy_flow (magnitude : Z) : string :=
  "0x" ++ py_upper (py_slice_from 2 (py_hex (Z.land magnitude 0xFFFFFFFFFF))).

Definition _calculate_conceptual_flux_metrics (env : Env) (data : gmap string pyval)
  : M (gmap string pyval) :=
  cpu_u ← lift (py_float (dict_get data "CPU Usage (%)" (VFloat 0)));
  mem_u ← lift (py_float (dict_get data "Memory Usage (%)" (VFloat 0)));
  gpu_u ← lift (py_float (dict_get data "GPU Usage (%)" (VFloat 0)));
  temp_c ← lift (py_float (dict_get data "CPU Temp (°C)" (VFloat 0)));
  disk_r ← lift (py_float (dict_get data "Disk Read Rate (MB/s)" (VFloat 0)));
  disk_w ← lift (py_float (dict_get data "Disk Write Rate (MB/s)" (VFloat 0)));
  net_s ← lift (py_float (dict_get data "Net Sent (MB/s)" (VFloat 0)));
  net_r ← lift (py_float (dict_get data "Net Received (MB/s)" (VFloat 0)));
  cpu_freq ← lift (py_float (dict_get data "CPU Freq (GHz)" (VFloat 0)));
  let total_io := disk_r + disk_w + net_s + net_r in
  let active_load := cpu_u + mem_u + gpu_u in
  let data :=
    <["Energetic Flux (Sim)" :=
        VFStr [Num (PFloat (py_round (active_load / 3 + temp_c / 10) 2)); Lit " J/s"]]>
    data in
  jitter ← randint env 100 500;
  let data :=
    <["Transistor State Change Rate (Sim)" :=
        VFStr [Num (PInt (py_int (cpu_u * 1000 + cpu_freq * 10000 + inject_Z jitter)));
               Lit "/s"]]>
    data in
  let integrity := integrity_of active_load temp_c total_io in
  let data :=
    <["Circuitry Integrity (Sim)" :=
        VFStr [Num (py_round_num (clamp_0_100 integrity) 2); Lit "%"]]>
    data in
  jitter ← randint env 1000 100000;
  let data :=
    <["Binary Data Byte Transit (Sim)" :=
        VFStr [Num (PInt (py_int (total_io * 1024 * 1024 * 8 + inject_Z jitter)));
               Lit " B/s"]]>
    data in
  let hex_flow_magnitude := hex_flow_magnitude_of active_load temp_c total_io in
  let data :=
    <["Hexadecimal Energy Flow (Sim)" := VStr (hex_energy_flow hex_flow_magnitude)]>
    data in
  let saturation := py_min (PInt 100) (PFloat (total_io * 5 + active_load * (5 # 10))) in
  let data :=
    <["Software-Hardware I/O Saturation (Sim)" :=
        VFStr [Num (py_round_num saturation 2); Lit "%"]]>
    data in
  jitter ← randint env 10000 50000;
  let data :=
    <["Electrical Controlled Pulses (Sim)" :=
        VFStr [Num (PInt (py_int (cpu_freq * inject_Z (10 ^ 9) + inject_Z jitter)));
               Lit "/s"]]>
    data in
  errors ← lift (as_num (dict_get data "Network Packet Errors" (VInt 0)));
  let data :=
    <["Unwanted Transit Purity Check (Sim)" :=
        VFStr [Num (PFloat (py_round
                      (100 - (num_val (times10 errors) + (active_load / 100) * 5)) 2));
               Lit "%"]]>
    data in
  mret data.

(** *** The sampling call *)

(** The body of the [try] of [get_detailed_system_data]. *)
Definition collect (env : Env) (current_time time_diff : Q) : M (gmap string pyval) :=
  s ← get_self;
  let data : gmap string pyval := dict_update ∅ (system_info s) in
  let data := <["Timestamp" := VStr (datetime_now env)]> data in
  cpu ← lift (_get_cpu_data env);
  let data := dict_update data cpu in
  mem ← lift (_get_memory_data env);
  let data := dict_update data mem in
  gpu ← _get_gpu_data env;
  let data := dict_update data gpu in
  sensors ← _get_sensor_data env;
  let data := dict_update data sensors in
  io ← _get_io_data env time_diff;
  let data := dict_update data io in
  set_last_call_time current_time;;
  proc ← lift (_get_process_data env);
  let data := dict_update data proc in
  _calculate_conceptual_flux_metrics env data.

Definition error_map (e : exn) : gmap string pyval :=
  {[ "Error" := VStr ("Failed to collect data: " ++ exn_msg e) ]}.

(** The [try] body run at the current time of the call. *)
Definition try_body (env : Env) (w : World) : outcome (gmap string pyval) * World :=
  let current_time := time_time env in
  let time_diff := current_time - last_call_time (self w) in
  collect env current_time time_diff w.

Definition get_detailed_system_data (env : Env) (w : World)
  : gmap string pyval * World :=
  match try_body env w with
  | (Returns data, w') => (data, w')
  | (Raises e, w') => (error_map e, w')
  end.

(** * The consumers of the snapshot

    [utils.py], [main.py] and [ai_integration.py], as far as they compute:
    the export table, the rows of the performance tree, one tick of the
    monitoring loop, the interval setting and the AI integration object.
    Widgets, threads, the file system and the remote service are outside
    the model; what they answer is an argument of the function that asks. *)

From stdpp Require sorting.

(** ** [utils.save_data_to_csv] *)

(** The file [csv.DictWriter] is asked to write: the header row and one row
    of cell values per snapshot.  Turning a value into text and quoting it
    is the [csv] module's work and outside the model. *)
Record csv_file : Type :=
  { fieldnames : list string; csv_rows : list (list pyval) }.

(** [sorted(list(set.union( *map(set, data))))]: strings sort by code point,
    which on UTF-8 text is the order of [String.le]. *)
Definition all_keys (data : list (gmap string pyval)) : list string :=
  sorting.merge_sort String.le (elements (⋃ (dom <$> data) : gset string)).

(** [DictWriter.writerow]: a key outside the field names is an error, a
    missing key is written as the empty string. *)
Definition writerow (names : list string) (row : gmap string pyval)
  : outcome (list pyval) :=
  if bool_decide (dom row ⊆ list_to_set names)
  then mret ((fun k => dict_get row k (VStr "")) <$> names)
  else Raises (mkExn ValueError "dict contains fields not in fieldnames").

Fixpoint writerows (names : list string) (data : list (gmap string pyval))
  : outcome (list (list pyval)) :=
  match data with
  | [] => mret []
  | row :: rest =>
      cells ← writerow names row;
      others ← writerows names rest;
      mret (cells :: others)
  end.

(** [open_file] is what [open(filepath, 'w')] answers.  The result is the
    file written, or [None] when nothing was written; an exception is logged
    and raised again. *)
Definition save_data_to_csv (open_file : outcome unit)
           (data : list (gmap string pyval)) : outcome (option csv_file) :=
  match data with
  | [] => mret None
  | _ :: _ =>
      let names := all_keys data in
      _ ← open_file;
      rows ← writerows names data;
      mret (Some {| fieldnames := names; csv_rows := rows |})
  end.

(** ** [main.PerformanceEnhancerApp] *)

Inductive tag : Type := GroupHeader | FluxMetric | HighUsage | Normal.

(** The groups of [_initialize_perf_tree]. *)
Definition groups : list (string * list string) :=
  [ ("CORE_USAGE",
     ["CPU Usage (%)"; "CPU Freq (GHz)"; "Logical Cores"; "CPU User Time (%)";
      "CPU System Time (%)"; "CPU Idle Time (%)"; "CPU Interrupt Time (%)"]);
    ("MEMORY_STATE",
     ["Memory Usage (%)"; "Used Memory (GB)"; "Available Memory (GB)";
      "Cached Memory (GB)"; "Swap Usage (%)"; "Shared Memory (GB)"]);
    ("GPU_STATE", ["GPU Usage (%)"; "GPU Memory (GB)"; "GPU Temp (°C)"]);
    ("I/O_TRANSIT_RATES",
     ["Disk Read Rate (MB/s)"; "Disk Write Rate (MB/s)"; "Net Sent (MB/s)";
      "Net Received (MB/s)"; "Disk I/O Latency (Sim/ms)"; "Network Packet Errors"]);
    ("SYSTEM_STATE",
     ["Running Processes"; "Top CPU Process"; "System Uptime (h)";
      "Open File Descriptors (Sim)"; "Network Total Connections"; "CPU Temp (°C)";
      "Fan Speed (%)"]);
    ("STATIC_INFO",
     ["Operating System"; "System Architecture"; "CPU Model (Sim)"; "Total RAM (GB)";
      "Boot Time"; "Python Version"]);
    ("FLUX_CONCEPTUAL",
     ["Energetic Flux (Sim) [J/s]"; "Transistor State Change Rate (Sim) [Hz]";
      "Circuitry Integrity (Sim) [%]"; "Binary Data Byte Transit (Sim) [B/s]";
      "Hexadecimal Energy Flow (Sim) [0x]";
      "Software-Hardware I/O Saturation (Sim) [%]";
      "Electrical Controlled Pulses (Sim) [Pulse/s]";
      "Unwanted Transit Purity Check (Sim) [%]"]) ].

(** The keys of [self.tree_rows], in insertion order (no attribute occurs
    twice, so the dictionary holds one row per listed attribute). *)
Definition tree_rows : list string := concat (snd <$> groups).

(** [isinstance(value, (int, float))]. *)
Definition is_number (v : pyval) : bool :=
  match v with
  | VNum _ => true
  | _ => false
  end.

(** [value > bound] for a value known to be a number. *)
Definition exceeds (v : pyval) (bound : Q) : bool :=
  match v with
  | VNum n => Qlt_bool bound (num_val n)
  | _ => false
  end.

(** The tag [_update_perf_tree] gives the row of [attr]. *)
Definition row_tag (attr : string) (value : pyval) : tag :=
  if py_in "Flux" attr || py_in "Transit" attr || py_in "Circuitry" attr
     || py_in "Pulses" attr || py_in "Hexadecimal" attr
  then FluxMetric
  else if bool_decide (attr ∈ ["CPU Usage (%)"; "Memory Usage (%)"; "GPU Usage (%)"])
          && is_number value && exceeds value 80
  then HighUsage
  else if String.eqb attr "CPU Temp (°C)" && is_number value && exceeds value 85
  then HighUsage
  else Normal.

(** What [_update_perf_tree] puts into the tree: the single error row, or
    for each attribute row its name, the value shown (through [str]) and its
    tag. *)
Inductive tree_update : Type :=
| ErrorRow (message : pyval)
| Rows (rows : list (string * pyval * tag)).

Definition _update_perf_tree (data : gmap string pyval) : tree_update :=
  match data !! "Error" with
  | Some message => ErrorRow message
  | None =>
      Rows ((fun attr =>
               let value := dict_get data attr (VStr "N/A") in
               (attr, value, row_tag attr value)) <$> tree_rows)
  end.

(** The attributes of the application the monitoring loop uses. *)
Record App : Type :=
  mkApp
  { system_monitor : World;
    data_history : list (gmap string pyval);
    update_interval_ms : Z }.

(** One pass of the body of the loop of [_monitor_loop]; [start_time] and [end_time]
    are its two readings of [time.time()].  The result is the application,
    the snapshot handed to the GUI if there is one, and the time to wait. *)
Definition _monitor_loop_body (env : Env) (start_time end_time : Q) (app : App)
  : App * option (gmap string pyval) * pynum :=
  let '(data_snapshot, monitor') := get_detailed_system_data env (system_monitor app) in
  let '(history, shown) :=
    match data_snapshot !! "Error" with
    | None => ((data_history app ++ [data_snapshot])%list, Some data_snapshot)
    | Some _ => (data_history app, None)
    end in
  let elapsed_time := end_time - start_time in
  let sleep_time :=
    py_max (PInt 0)
           (PFloat (inject_Z (update_interval_ms app) / 1000 - elapsed_time)) in
  (mkApp monitor' history (update_interval_ms app), shown, sleep_time).

(** [_apply_interval]; [entry] is what [int(self.interval_entry.get())]
    answers.  Only [ValueError] is handled. *)
Definition _apply_interval (entry : outcome Z) (app : App) : outcome App :=
  match entry with
  | Returns interval_sec =>
      if (5 <=? interval_sec)%Z && (interval_sec <=? 600)%Z
      then mret (mkApp (system_monitor app) (data_history app) (interval_sec * 1000))
      else mret app
  | Raises e =>
      match exn_cls e with
      | ValueError => mret app
      | _ => Raises e
      end
  end.

(** The application as its constructor leaves it. *)
Definition initial_app (monitor : SystemMonitor) : App := mkApp (mkWorld monitor 0) [] 10000.

(** ** [ai_integration.GeminiAIIntegration] *)

(** What a method of the module can raise: a [NameError] for a name the
    module does not bind, or an exception of the kind the collector has. *)
Inductive py_error : Type :=
| NameError (name : string)
| Raised (e : exn).

(** [str(e)]. *)
Definition error_str (err : py_error) : string :=
  match err with
  | NameError name => "name '" ++ name ++ "' is not defined"
  | Raised e => exn_msg e
  end.

(** The names the module binds: its imports ([import google as genai] binds
    [genai] only), its logger and its class. *)
Definition ai_module_names : list string :=
  ["genai"; "logging"; "time"; "json"; "logger"; "GeminiAIIntegration"].

(** Reading a global name of the module. *)
Definition global_name (name : string) : py_error + unit :=
  if bool_decide (name ∈ ai_module_names) then inr tt else inl (NameError name).

Definition of_outcome {A} (o : outcome A) : py_error + A :=
  match o with
  | Returns a => inr a
  | Raises e => inl (Raised e)
  end.

#[global] Instance py_error_ret : MRet (sum py_error) := fun _ a => inr a.
#[global] Instance py_error_bind : MBind (sum py_error) := fun _ _ k m =>
  match m with
  | inr a => k a
  | inl err => inl err
  end.

Record GeminiAIIntegration : Type :=
  mkGemini { api_key : option string; model : option string; ai_enabled : bool }.

Definition GeminiAIIntegration__init__ : GeminiAIIntegration :=
  mkGemini None None false.

(** [set_api_key]; [configure] is what the two library calls of the [try]
    block answer once their names are resolved.  The result is what the call
    raises, if anything, and the object afterwards. *)
Definition set_api_key (configure : outcome unit) (key : string)
           (self : GeminiAIIntegration) : option py_error * GeminiAIIntegration :=
  if negb (String.eqb key "") && negb (String.eqb key "YOUR_GEMINI_API_KEY") then
    match (_ ← global_name "google"; _ ← global_name "genai"; of_outcome configure) with
    | inr _ => (None, mkGemini (Some key) (Some "gemini-1.5-flash") true)
    | inl e =>
        (Some (Raised (mkExn ValueError
                 ("Invalid Gemini API Key or configuration issue: " ++ error_str e))),
         mkGemini (Some key) None false)
    end
  else (None, mkGemini None None false).

(** The report both the remote model and the local generator produce. *)
Record report : Type :=
  { analysis : string;
    root_cause : string;
    optimization_suggestions : list string;
    correction_commands : list string;
    hardware_enhancements : list string;
    conceptual_enhancements : list pyval;
    generated_by : string }.

(** [_generate_simulated_response]; [platform_system] is what
    [platform.system()] would answer and [draw] the draw of
    [random.random()] behind [random.uniform(5, 15)]. *)
Definition _generate_simulated_response (platform_system : string) (draw : Q)
           (system_data : gmap string pyval) : py_error + report :=
  cpu_u ← of_outcome (py_float (dict_get system_data "CPU Usage (%)" (VInt 0)));
  mem_u ← of_outcome (py_float (dict_get system_data "Memory Usage (%)" (VInt 0)));
  temp_c ← of_outcome (py_float (dict_get system_data "CPU Temp (°C)" (VInt 0)));
  let analysis0 :=
    "System Status: Nominal. Baseline performance is within acceptable thresholds." in
  let root_cause0 :=
    "No critical root causes. Minor resource fluctuations due to background OS tasks." in
  let suggestions0 :=
    ["Monitor high-usage applications if load increases.";
     "Run a routine disk cleanup."] in
  let hardware0 :=
    ["Evaluate RAM frequency upgrade for increased throughput.";
     "Consider upgrading to an NVMe drive for I/O acceleration."] in
  '(a, rc, sug, cmds, hw) ←
    (if Qlt_bool 70 cpu_u && Qlt_bool 80 temp_c then
       _ ← global_name "platform";
       mret ("System Status: CRITICAL. Severe thermal throttling likely due to high CPU load.",
             "Sustained high CPU usage coupled with inadequate cooling solution.",
             "IMMEDIATELY check cooling system and reduce active processes." :: suggestions0,
             [if String.eqb platform_system "Windows"
              then "taskkill /IM top_process.exe" else "killall -9 top_process"],
             "HIGH PRIORITY: Upgrade to a high-performance AIO or custom loop cooler."
               :: hardware0)
     else mret (analysis0, root_cause0, suggestions0, [], hardware0));
  _ ← global_name "random";
  let conceptual :=
    [VStr "AI-Driven Optimization of Transistor Gating Logic: Proposing a sweep to clean up 'unwanted impurities' in hardware-software transit via simulated logic restructuring.";
     VFStr [Lit "Software-Hardware Flux Stabilization: Recommending a kernel-level optimization (Simulated) to reduce latency in I/O Saturation by ";
            Num (PFloat (py_round (uniform 5 15 draw) 1)); Lit "%."];
     VStr "Enhancing Electrical Controlled Pulses: Suggesting a frequency smoothing algorithm (Simulated) to stabilize computational power delivery."] in
  _ ← global_name "random";
  mret {| analysis := a; root_cause := rc; optimization_suggestions := sug;
          correction_commands := cmds; hardware_enhancements := hw;
          conceptual_enhancements := conceptual;
          generated_by := "Simulated AI Algorithm v2.0 (High Detail)" |}.

(** [call_gemini_api]; [remote] is what the body of its [try] block answers
    (the request, the clean-up of the text and [json.loads]).  A handler is
    chosen by evaluating the class named in its [except] clause, the first
    of which is [APIError]. *)
Definition call_gemini_api (platform_system : string) (draw : Q)
           (remote : outcome report) (self : GeminiAIIntegration)
           (system_data : gmap string pyval) : py_error + report :=
  if negb (ai_enabled self)
  then _generate_simulated_response platform_system draw system_data
  else
    match remote with
    | Returns parsed_response => mret parsed_response
    | Raises _ =>
        _ ← global_name "APIError";
        _generate_simulated_response platform_system draw system_data
    end.

(** ** Vocabulary of the properties *)

Definition is_returns {A} (o : outcome A) : bool :=
  match o with
  | Returns _ => true
  | Raises _ => false
  end.

(** The attribute names of a snapshot, by stage. *)
Definition static_keys : gset string :=
  list_to_set ["Operating System"; "System Architecture"; "CPU Model (Sim)";
               "Python Version"; "Total RAM (GB)"; "Boot Time"].
Definition cpu_keys : gset string :=
  list_to_set ["CPU Usage (%)"; "CPU Freq (GHz)"; "Logical Cores"; "Physical Cores";
               "CPU User Time (%)"; "CPU System Time (%)"; "CPU Idle Time (%)";
               "CPU Iowait Time (%)"].
Definition memory_keys : gset string :=
  list_to_set ["Memory Usage (%)"; "Used Memory (GB)"; "Available Memory (GB)";
               "Cached Memory (GB)"; "Swap Usage (%)"; "Used Swap (GB)";
               "Shared Memory (GB)"].
Definition gpu_keys : gset string :=
  list_to_set ["GPU Usage (%)"; "GPU Memory (GB)"; "GPU Temp (°C)"].
Definition sensor_keys : gset string :=
  list_to_set ["CPU Temp (°C)"; "Fan Speed (%)"].
Definition io_keys : gset string :=
  list_to_set ["Disk Read Rate (MB/s)"; "Disk Write Rate (MB/s)"; "Net Sent (MB/s)";
               "Net Received (MB/s)"; "Network Total Connections";
               "Disk Total Partitions"; "Network Packet Errors";
               "Disk I/O Latency (Sim/ms)"].
Definition process_keys : gset string :=
  list_to_set ["Running Processes"; "Top CPU Process"; "System Uptime (h)";
               "Login Users"; "Open File Descriptors (Sim)"].
Definition derived_keys : gset string :=
  list_to_set ["Energetic Flux (Sim)"; "Transistor State Change Rate (Sim)";
               "Circuitry Integrity (Sim)"; "Binary Data Byte Transit (Sim)";
               "Hexadecimal Energy Flow (Sim)";
               "Software-Hardware I/O Saturation (Sim)";
               "Electrical Controlled Pulses (Sim)";
               "Unwanted Transit Purity Check (Sim)"].

Definition sampled_keys : gset string :=
  {["Timestamp"]} ∪ cpu_keys ∪ memory_keys ∪ gpu_keys ∪ sensor_keys ∪ io_keys
  ∪ process_keys ∪ derived_keys.

Definition documented_keys : gset string := static_keys ∪ sampled_keys.


(** The inputs of the derived indicators, as read from the collected data. *)
Definition active_load_in (data : gmap string pyval) : Q :=
  dict_num data "CPU Usage (%)" + dict_num data "Memory Usage (%)"
  + dict_num data "GPU Usage (%)".
Definition total_io_in (data : gmap string pyval) : Q :=
  dict_num data "Disk Read Rate (MB/s)" + dict_num data "Disk Write Rate (MB/s)"
  + dict_num data "Net Sent (MB/s)" + dict_num data "Net Received (MB/s)".
Definition temp_in (data : gmap string pyval) : Q := dict_num data "CPU Temp (°C)".









(** The stages that run before the rate stage all return. *)
Definition instant_stages_return (env : Env) : bool :=
  is_returns (_get_cpu_data env) && is_returns (_get_memory_data env)
  && is_returns (psutil_sensors_temperatures env)
  && is_returns (psutil_sensors_fans env).

(** The queries of the rate stage that follow the disk counters. *)
Definition rate_tail_returns (env : Env) : bool :=
  is_returns (psutil_net_io_counters env)
  && is_returns (psutil_net_connections env)
  && is_returns (psutil_disk_partitions env).

(** ** Concrete hosts *)

(** A Linux host without GPUtil; the arguments are the answers that vary
    between the scenarios below. *)
Definition host (gpu : option (outcome (list GPU)))
           (disk : outcome sdiskio) (net : outcome snetio)
           (procs : outcome (list (outcome proc_info)))
           (users : outcome nat) (now : Q) : Env :=
  {| time_time := now;
     datetime_now := "2025-01-01 00:00:00";
     psutil_cpu_times_percent :=
       Returns {| cpu_user := 10; cpu_system := 5; cpu_idle := 85; cpu_iowait := Some 0 |};
     psutil_cpu_percent := Returns 90;
     psutil_cpu_freq := Returns (Some 2400);
     psutil_cpu_count_logical := Returns (Some 8%Z);
     psutil_cpu_count_physical := Returns (Some 4%Z);
     psutil_virtual_memory :=
       Returns {| vm_total := 17179869184; vm_percent := 85; vm_used := 14602888806;
                  vm_available := 2576980378; vm_cached := Some 1073741824%Z;
                  vm_shared := None |};
     psutil_swap_memory := Returns {| sw_percent := 0; sw_used := 0 |};
     GPUtil := gpu;
     psutil_sensors_temperatures :=
       Returns (<["coretemp" := [ {| label := "Core 0"; current := 88 |} ]]> ∅);
     psutil_sensors_fans := Returns [];
     psutil_disk_io_counters := disk;
     psutil_net_io_counters := net;
     psutil_net_connections := Returns 3%nat;
     psutil_disk_partitions := Returns 2%nat;
     psutil_pids := Returns 2%nat;
     psutil_process_iter := procs;
     time_time_uptime := now;
     psutil_boot_time := Returns 1;
     psutil_users := users;
     psutil_num_fds := Returns 12%Z;
     random_random := fun _ => 1 # 2;
     random_randint := fun _ a _ => a;
     platform_platform := "Linux-6.1-x86_64";
     platform_machine := "x86_64";
     platform_processor := "";
     platform_python_version := "3.11.4";
     strftime := fun _ => "1970-01-01 00:00:01" |}.

Definition quiet_net : snetio :=
  {| bytes_sent := 0; bytes_recv := 0; errin := 0; errout := 0 |}.

(** The baseline of the disk scenario: counters [(1_000_000, 500_000)], last
    sample at time [100]. *)
Definition baseline : SystemMonitor :=
  mkMonitor quiet_net {| read_bytes := 1000000; write_bytes := 500000 |} 100
            "1970-01-01 00:00:01" ∅.

Definition two_processes : list (outcome proc_info) :=
  [ Returns {| pid := 1; name := Some "python"; cpu_percent := Some 12.5 |};
    Raises (mkExn AccessDenied "psutil.AccessDenied (pid=2)");
    Returns {| pid := 3; name := Some "bash"; cpu_percent := Some 0 |} ].

(** One second later the disk has read [2_048_000] more bytes. *)
Definition host_disk_scenario : Env :=
  host None (Returns {| read_bytes := 2048000 + 1000000; write_bytes := 500000 |})
       (Returns quiet_net) (Returns two_processes) (Returns 1%nat) 101.


(** [psutil.users()] fails, after the rate stage has run. *)
Definition host_users_fail : Env :=
  host None (Returns {| read_bytes := 3048000; write_bytes := 500000 |})
       (Returns quiet_net) (Returns two_processes)
       (Raises (mkExn OSError "[Errno 2] No such file or directory: '/var/run/utmp'")) 101.

(** [psutil.disk_io_counters()] fails. *)
Definition host_disk_fail : Env :=
  host None (Raises (mkExn OSError "can't read /proc/diskstats"))
       (Returns quiet_net) (Returns two_processes) (Returns 1%nat) 101.

(** A present GPU under load. *)
Definition host_with_gpu : Env :=
  host (Some (Returns [ {| load := 1 # 2; memoryUsed := 2048; temperature := 61 |} ]))
       (Returns {| read_bytes := 3048000; write_bytes := 500000 |})
       (Returns quiet_net) (Returns two_processes) (Returns 1%nat) 102.

(** The collected data of the integrity scenario: [cpu%=90], [mem%=85],
    [gpu%=10], [temp=88], [total_io=50]. *)
Definition scenario_data : gmap string pyval :=
  <["CPU Usage (%)" := VFloat 90]>
  (<["Memory Usage (%)" := VFloat 85]>
  (<["GPU Usage (%)" := VFloat 10]>
  (<["CPU Temp (°C)" := VFloat 88]>
  (<["Disk Read Rate (MB/s)" := VFloat 50]> ∅)))).


(** The value of [rate_mb], which never raises. *)
Definition rate_value (bytes_d : Z) (time_diff : Q) : Q :=
  if Qlt_bool 0 time_diff then py_round (inject_Z bytes_d / time_diff / MiB) 2 else 0.

(** The collector after the rate stage has stored the counters it read. *)
Definition with_counters (s : SystemMonitor) (disk : sdiskio) (net : snetio)
  : SystemMonitor :=
  mkMonitor net disk (last_call_time s) (system_boot_time s) (system_info s).



(** The dictionary an outcome holds ([∅] if it raised). *)
Definition returned (o : outcome (gmap string pyval)) : gmap string pyval :=
  match o with
  | Returns d => d
  | Raises _ => ∅
  end.

(** The collector after the sampling call has stored the time of the call. *)
Definition with_call_time (s : SystemMonitor) (t : Q) : SystemMonitor :=
  mkMonitor (last_net_io s) (last_disk_io s) t (system_boot_time s) (system_info s).

(** RateState: the part of the collector the rate computation reads. *)
Definition rate_state (s : SystemMonitor) : sdiskio * snetio * Q :=
  (last_disk_io s, last_net_io s, last_call_time s).

(** Every stage whose queries can fail returns. *)
Definition all_stages_return (env : Env) : bool :=
  instant_stages_return env
  && is_returns (psutil_disk_io_counters env)
  && rate_tail_returns env
  && is_returns (_get_process_data env).

(** The sensor interface is missing (as on Windows). *)
Definition host_no_sensors : Env :=
  let e := host_disk_scenario in
  {| time_time := time_time e;
     datetime_now := datetime_now e;
     psutil_cpu_times_percent := psutil_cpu_times_percent e;
     psutil_cpu_percent := psutil_cpu_percent e;
     psutil_cpu_freq := psutil_cpu_freq e;
     psutil_cpu_count_logical := psutil_cpu_count_logical e;
     psutil_cpu_count_physical := psutil_cpu_count_physical e;
     psutil_virtual_memory := psutil_virtual_memory e;
     psutil_swap_memory := psutil_swap_memory e;
     GPUtil := GPUtil e;
     psutil_sensors_temperatures :=
       Raises (mkExn AttributeError
                 "module 'psutil' has no attribute 'sensors_temperatures'");
     psutil_sensors_fans := psutil_sensors_fans e;
     psutil_disk_io_counters := psutil_disk_io_counters e;
     psutil_net_io_counters := psutil_net_io_counters e;
     psutil_net_connections := psutil_net_connections e;
     psutil_disk_partitions := psutil_disk_partitions e;
     psutil_pids := psutil_pids e;
     psutil_process_iter := psutil_process_iter e;
     time_time_uptime := time_time_uptime e;
     psutil_boot_time := psutil_boot_time e;
     psutil_users := psutil_users e;
     psutil_num_fds := psutil_num_fds e;
     random_random := random_random e;
     random_randint := random_randint e;
     platform_platform := platform_platform e;
     platform_machine := platform_machine e;
     platform_processor := platform_processor e;
     platform_python_version := platform_python_version e;
     strftime := strftime e |}.

(** [psutil.net_io_counters()] fails, after the disk counters were read. *)
Definition host_net_fail : Env :=
  host None (Returns {| read_bytes := 3048000; write_bytes := 500000 |})
       (Raises (mkExn OSError "can't read /proc/net/dev"))
       (Returns two_processes) (Returns 1%nat) 101.

(** ** Proof steps shared by the properties *)

(** Unfold the binds of the two monads. *)
Ltac unfold_M :=
  cbv beta iota zeta delta
    [mbind mret M_bind M_ret outcome_bind outcome_ret lift get_self
     set_last_disk_io set_last_net_io set_last_call_time
     random_uniform randint] in *;
  cbn [self draws last_net_io last_disk_io last_call_time system_boot_time
       system_info] in *.

Ltac unfold_outcome :=
  cbv beta iota zeta delta [mbind mret outcome_bind outcome_ret] in *.

(** Equality of two unions of the same singletons and sets. *)
Ltac union_eq :=
  let x := fresh "x" in
  apply set_eq; intros x;
  rewrite ?elem_of_union, ?elem_of_singleton, ?elem_of_empty; tauto.

(** Look a key up in a dictionary built by insertions. *)
Ltac map_lookup :=
  repeat first
    [ rewrite lookup_insert_eq
    | rewrite lookup_insert_ne by discriminate
    | rewrite lookup_empty ].


(** ** Vocabulary of the further properties *)

(** The value under [k] is a number, or [k] is missing. *)
Definition numeric_at (data : gmap string pyval) (k : string) : bool :=
  match data !! k with
  | Some (VNum _) | None => true
  | Some _ => false
  end.


(** The data handed to the derived-indicator stage, from the stage results. *)
Definition collected (env : Env) (s : SystemMonitor)
           (cpu mem gpu sensors io proc : gmap string pyval) : gmap string pyval :=
  proc ∪ (io ∪ (sensors ∪ (gpu ∪ (mem ∪ (cpu ∪
    (<["Timestamp" := VStr (datetime_now env)]> (system_info s ∪ ∅))))))).

(** A key is not in a set of attribute names given by a list. *)
Ltac key_not_in :=
  let H := fresh "H" in
  rewrite elem_of_list_to_set; intros H;
  repeat (apply elem_of_cons in H as [H | H]; [discriminate H |]);
  by apply elem_of_nil in H.

(** A key of one stage is no key of another: [Hother] turns the
    disjointness [D] into the non-membership at hand. *)
Ltac other_stage Hother D :=
  apply (Hother _ _ _ D); rewrite !elem_of_union, ?elem_of_singleton; tauto.

(** A collector built by the constructor on the host of the disk scenario. *)
Definition constructed : SystemMonitor :=
  match __init__ host_disk_scenario with
  | Returns s => s
  | Raises _ => baseline
  end.

(** The CPU temperature the sensor stage reads before rounding: [coretemp]
    if the host lists it, else [cpu_thermal], else nothing. *)
Definition cpu_temp_reading (temps : gmap string (list shwtemp)) : Q :=
  match temps !! "coretemp" with
  | Some entries => coretemp_max entries
  | None =>
      match temps !! "cpu_thermal" with
      | Some entries => thermal_max entries
      | None => 0
      end
  end.

Definition cpu_label (entry : shwtemp) : bool :=
  py_in "CPU" (label entry) || py_in "Core" (label entry).

(** The entries of [procs] whose [info] could be read, in order. *)
Definition infos (procs : list (outcome proc_info)) : list proc_info :=
  omap (fun o => match o with Returns info => Some info | Raises _ => None end) procs.

(** A host whose sensors list a chipset sensor under [coretemp] and a hot
    reading under [cpu_thermal], and one fan without a percentage. *)
Definition unlabelled_temps : gmap string (list shwtemp) :=
  <["coretemp" := [ {| label := "Package id 0"; current := 71 |} ]]>
  (<["cpu_thermal" := [ {| label := ""; current := 93 |} ]]> ∅).

Definition idle_processes : list (outcome proc_info) :=
  [ Returns {| pid := 1; name := Some "systemd"; cpu_percent := Some 0 |};
    Raises (mkExn NoSuchProcess "process no longer exists (pid=7)");
    Returns {| pid := 9; name := Some "sshd"; cpu_percent := Some 0 |} ].

(** A host on which no process uses the CPU. *)
Definition host_idle : Env :=
  host None (Returns {| read_bytes := 3048000; write_bytes := 500000 |})
       (Returns quiet_net) (Returns idle_processes) (Returns 1%nat) 101.



(** The tree rows whose attribute name is no key of a snapshot. *)
Definition unmatched_rows : list string :=
  ["CPU Interrupt Time (%)";
   "Energetic Flux (Sim) [J/s]"; "Transistor State Change Rate (Sim) [Hz]";
   "Circuitry Integrity (Sim) [%]"; "Binary Data Byte Transit (Sim) [B/s]";
   "Hexadecimal Energy Flow (Sim) [0x]";
   "Software-Hardware I/O Saturation (Sim) [%]";
   "Electrical Controlled Pulses (Sim) [Pulse/s]";
   "Unwanted Transit Purity Check (Sim) [%]"].

(** The cells [DictWriter] writes for [row] under the header [names]. *)
Definition cells (names : list string) (row : gmap string pyval) : list pyval :=
  (fun k => dict_get row k (VStr "")) <$> names.

(** Two snapshots with different key sets, as a history to export. *)
Definition mixed_history : list (gmap string pyval) :=
  [ <["Timestamp" := VStr "2025-01-01 00:00:00"]> (<["CPU Usage (%)" := VFloat 90]> ∅);
    <["Timestamp" := VStr "2025-01-01 00:00:10"]> (<["GPU Usage (%)" := VFloat 3]> ∅) ].

(** [_apply_interval] for each entry in turn; an entry that raises something
    other than [ValueError] ends the sequence. *)
Fixpoint apply_intervals (entries : list (outcome Z)) (app : App) : outcome App :=
  match entries with
  | [] => mret app
  | entry :: rest => app' ← _apply_interval entry app; apply_intervals rest app'
  end.

(** The integration object after a sequence of [set_api_key] calls, each
    with what its library calls would answer and the key entered. *)
Definition configured (calls : list (outcome unit * string)) : GeminiAIIntegration :=
  foldl (fun self call => snd (set_api_key (fst call) (snd call) self))
        GeminiAIIntegration__init__ calls.

Definition is_error {A} (r : py_error + A) : bool :=
  match r with
  | inl _ => true
  | inr _ => false
  end.

(** The three metrics the local generator reads are numbers or missing. *)
Definition metrics_numeric (data : gmap string pyval) : bool :=
  numeric_at data "CPU Usage (%)" && numeric_at data "Memory Usage (%)"
  && numeric_at data "CPU Temp (°C)".

(** * Properties *)

Section Rounding.

Lemma Qlt_bool_iff (a b : Q) : Qlt_bool a b = true <-> a < b.
Proof.
  unfold Qlt_bool. rewrite negb_true_iff.
  destruct (Qle_bool b a) eqn:E.
  - apply Qle_bool_iff in E. split; [discriminate | intros H; lra].
  - split; [intros _ | reflexivity].
    apply Qnot_le_lt. intros H. apply Qle_bool_iff in H. congruence.
Qed.

Lemma Qlt_bool_false (a b : Q) : Qlt_bool a b = false <-> b <= a.
Proof.
  unfold Qlt_bool. rewrite negb_false_iff. apply Qle_bool_iff.
Qed.












End Rounding.

(** ** Stepping through the methods *)

Lemma rate_mb_returns (bytes_d : Z) (time_diff : Q) :
  rate_mb bytes_d time_diff = Returns (rate_value bytes_d time_diff).
Proof.
  unfold rate_mb, rate_value, py_div.
  destruct (Qlt_bool 0 time_diff) eqn:Ht; [| reflexivity].
  apply Qlt_bool_iff in Ht.
  destruct (Qeq_bool time_diff 0) eqn:Hz; [| reflexivity].
  apply Qeq_bool_iff in Hz. lra.
Qed.

(** The rate stage, query by query. *)
Lemma _get_io_data_run env td s n :
  match psutil_disk_io_counters env with
  | Raises e => _get_io_data env td (mkWorld s n) = (Raises e, mkWorld s n)
  | Returns disk =>
      let s1 := with_counters s disk (last_net_io s) in
      let s2 net := with_counters s disk net in
      match psutil_net_io_counters env with
      | Raises e => _get_io_data env td (mkWorld s n) = (Raises e, mkWorld s1 n)
      | Returns net =>
          match psutil_net_connections env with
          | Raises e =>
              _get_io_data env td (mkWorld s n) = (Raises e, mkWorld (s2 net) n)
          | Returns _ =>
              match psutil_disk_partitions env with
              | Raises e =>
                  _get_io_data env td (mkWorld s n) = (Raises e, mkWorld (s2 net) n)
              | Returns _ =>
                  exists d,
                  _get_io_data env td (mkWorld s n)
                  = (Returns d, mkWorld (s2 net) (S n)) /\
                  dom d = io_keys /\
                  let read := rate_value (read_bytes disk - read_bytes (last_disk_io s)) td in
                  let write := rate_value (write_bytes disk - write_bytes (last_disk_io s)) td in
                  d !! "Disk Read Rate (MB/s)" = Some (VFloat read) /\
                  d !! "Disk Write Rate (MB/s)" = Some (VFloat write) /\
                  d !! "Net Sent (MB/s)"
                  = Some (VFloat (rate_value (bytes_sent net - bytes_sent (last_net_io s)) td)) /\
                  d !! "Net Received (MB/s)"
                  = Some (VFloat (rate_value (bytes_recv net - bytes_recv (last_net_io s)) td)) /\
                  d !! "Disk I/O Latency (Sim/ms)"
                  = Some (VFloat (py_round (uniform 2 20 (random_random env n)
                                            * bool_num (Qlt_bool 0 (read + write))) 2))
              end
          end
      end
  end.
Proof.
  unfold _get_io_data. unfold_M.
  destruct (psutil_disk_io_counters env) as [disk | e]; [| reflexivity].
  rewrite !rate_mb_returns.
  destruct (psutil_net_io_counters env) as [net | e]; [| reflexivity].
  rewrite !rate_mb_returns.
  destruct (psutil_net_connections env) as [conns | e]; [| reflexivity].
  destruct (psutil_disk_partitions env) as [parts | e]; [| reflexivity].
  eexists. split; [reflexivity |]. split.
  - rewrite !dom_insert_L, dom_empty_L. reflexivity.
  - cbv zeta. map_lookup. repeat split; reflexivity.
Qed.

(** What a returning rate stage stored under its rate and latency keys. *)
Lemma _get_io_data_returns env td w d w' :
  _get_io_data env td w = (Returns d, w') ->
  exists disk net,
    psutil_disk_io_counters env = Returns disk /\
    psutil_net_io_counters env = Returns net /\
    self w' = with_counters (self w) disk net /\
    dom d = io_keys /\
    let prev_d := last_disk_io (self w) in
    let prev_n := last_net_io (self w) in
    let read := rate_value (read_bytes disk - read_bytes prev_d) td in
    let write := rate_value (write_bytes disk - write_bytes prev_d) td in
    d !! "Disk Read Rate (MB/s)" = Some (VFloat read) /\
    d !! "Disk Write Rate (MB/s)" = Some (VFloat write) /\
    d !! "Net Sent (MB/s)"
    = Some (VFloat (rate_value (bytes_sent net - bytes_sent prev_n) td)) /\
    d !! "Net Received (MB/s)"
    = Some (VFloat (rate_value (bytes_recv net - bytes_recv prev_n) td)) /\
    d !! "Disk I/O Latency (Sim/ms)"
    = Some (VFloat (py_round (uniform 2 20 (random_random env (draws w))
                              * bool_num (Qlt_bool 0 (read + write))) 2)).
Proof.
  destruct w as [s n]. intros Hrun. pose proof (_get_io_data_run env td s n) as H.
  destruct (psutil_disk_io_counters env) as [disk | e]; [| congruence].
  destruct (psutil_net_io_counters env) as [net | e]; [| cbv zeta in H; congruence].
  destruct (psutil_net_connections env); [| cbv zeta in H; congruence].
  destruct (psutil_disk_partitions env); [| cbv zeta in H; congruence].
  destruct H as (d0 & Hd0 & Hdom & Hkeys).
  rewrite Hd0 in Hrun. injection Hrun as <- <-.
  exists disk, net. cbn [self draws]. auto.
Qed.

Lemma rate_value_no_time (bytes_d : Z) (td : Q) : td <= 0 -> rate_value bytes_d td = 0.
Proof.
  intros Htd. unfold rate_value.
  destruct (Qlt_bool 0 td) eqn:E; [| reflexivity].
  apply Qlt_bool_iff in E. lra.
Qed.


(** A returning run is the pair of its dictionary and its final state. *)
Lemma returned_eta {W} (p : outcome (gmap string pyval) * W) :
  is_returns (fst p) = true -> p = (Returns (returned (fst p)), snd p).
Proof. destruct p as [[d | e] w]; [reflexivity | discriminate]. Qed.

(** ** Rate computation *)

(** C5.  When the elapsed time passed to the rate stage is zero or negative,
    no division is attempted ([rate_mb] returns, it does not raise), the stage
    returns whenever its queries do, and the four disk and network rates it
    stores are all [0.0], whatever the counters. *)
Theorem rates_zero_when_elapsed_nonpositive env td w :
  td <= 0 ->
  (forall bytes_d, rate_mb bytes_d td = Returns 0) /\
  (is_returns (psutil_disk_io_counters env) && rate_tail_returns env = true ->
   is_returns (fst (_get_io_data env td w)) = true) /\
  (forall d w', _get_io_data env td w = (Returns d, w') ->
     d !! "Disk Read Rate (MB/s)" = Some (VFloat 0) /\
     d !! "Disk Write Rate (MB/s)" = Some (VFloat 0) /\
     d !! "Net Sent (MB/s)" = Some (VFloat 0) /\
     d !! "Net Received (MB/s)" = Some (VFloat 0)).
Proof.
  intros Htd. split; [| split].
  - intros b. rewrite rate_mb_returns. by rewrite rate_value_no_time.
  - destruct w as [s n]. pose proof (_get_io_data_run env td s n) as H.
    unfold rate_tail_returns.
    destruct (psutil_disk_io_counters env); [| discriminate].
    destruct (psutil_net_io_counters env); [| discriminate].
    destruct (psutil_net_connections env); [| discriminate].
    destruct (psutil_disk_partitions env); [| discriminate].
    destruct H as (d & -> & _). reflexivity.
  - intros d w' Hrun.
    destruct (_get_io_data_returns _ _ _ _ _ Hrun)
      as (disk & net & _ & _ & _ & _ & Hr & Hw & Hs & Hv & _).
    rewrite !rate_value_no_time in * by done. auto.
Qed.

Lemma rates_zero_when_elapsed_nonpositive_witness :
  rate_mb 2048000 0 = Returns 0 /\
  is_returns (fst (_get_io_data host_disk_scenario 0 (mkWorld baseline 0))) = true.
Proof.
  destruct (rates_zero_when_elapsed_nonpositive host_disk_scenario 0 (mkWorld baseline 0))
    as (Hrate & Hret & _).
  - apply Qle_refl.
  - split; [apply Hrate | apply Hret; reflexivity].
Defined.





(** ** Simulated disk latency *)




(** ** GPU metrics *)

Lemma gpu_keys_of_inserts (a b : pyval) (m : gmap string pyval) :
  dom m = gpu_keys ->
  dom (<["GPU Temp (°C)" := a]> (<["GPU Usage (%)" := b]> m)) = gpu_keys.
Proof.
  intros Hm. rewrite !dom_insert_L, Hm. unfold gpu_keys. set_solver.
Qed.

Lemma gpu_keys_of_reading (a b c : pyval) (m : gmap string pyval) :
  dom m = gpu_keys ->
  dom (<["GPU Temp (°C)" := a]> (<["GPU Memory (GB)" := b]> (<["GPU Usage (%)" := c]> m)))
  = gpu_keys.
Proof.
  intros Hm. rewrite !dom_insert_L, Hm. unfold gpu_keys. set_solver.
Qed.

Lemma gpu_keys_initial (a b c : pyval) :
  dom (<["GPU Usage (%)" := a]> (<["GPU Memory (GB)" := b]>
        (<["GPU Temp (°C)" := c]> (∅ : gmap string pyval)))) = gpu_keys.
Proof. rewrite !dom_insert_L, dom_empty_L. reflexivity. Qed.

(** The GPU stage always returns, with its three keys, and leaves the
    collector alone. *)
Lemma _get_gpu_data_total env w :
  exists d n, _get_gpu_data env w = (Returns d, mkWorld (self w) n) /\ dom d = gpu_keys.
Proof.
  destruct w as [s n]. unfold _get_gpu_data. unfold_M.
  pose proof gpu_keys_initial as Hinit.
  destruct (GPUtil env) as [[[| gpu gpus] | e] |];
    match goal with
    | |- context [Qeq_bool ?x 0] => destruct (Qeq_bool x 0)
    end;
    eexists _, _; (split; [reflexivity |]);
    repeat first [ apply gpu_keys_of_inserts
                 | apply gpu_keys_of_reading
                 | apply Hinit ].
Qed.




(** ** Hexadecimal rendering *)

Section Hex.

Local Open Scope Z_scope.













End Hex.

(** ** Derived indicators *)

Lemma py_float_get (data : gmap string pyval) (k : string) (q : Q) :
  py_float (dict_get data k (VFloat 0)) = Returns q -> q = dict_num data k.
Proof.
  unfold dict_get, dict_num.
  destruct (data !! k) as [[| n | s | ps] |]; cbn; congruence.
Qed.

(** What a returning derived-indicator stage stored. *)
Lemma _calculate_conceptual_flux_metrics_returns env data w d w' :
  _calculate_conceptual_flux_metrics env data w = (Returns d, w') ->
  self w' = self w /\
  dom d = derived_keys ∪ dom data /\
  d !! "Circuitry Integrity (Sim)"
  = Some (VFStr [Num (py_round_num
                        (clamp_0_100
                           (integrity_of (active_load_in data) (temp_in data)
                                         (total_io_in data))) 2);
                 Lit "%"]) /\
  d !! "Hexadecimal Energy Flow (Sim)"
  = Some (VStr (hex_energy_flow
                  (hex_flow_magnitude_of (active_load_in data) (temp_in data)
                                         (total_io_in data)))).
Proof.
  destruct w as [s n]. unfold _calculate_conceptual_flux_metrics. unfold_M.
  repeat match goal with
         | |- context [py_float (dict_get data ?k (VFloat 0))] =>
             let E := fresh "E" in
             destruct (py_float (dict_get data k (VFloat 0))) eqn:E;
             [apply py_float_get in E; subst | discriminate]
         end.
  match goal with
  | |- context [as_num ?v] => destruct (as_num v); [| discriminate]
  end.
  intros Hrun. injection Hrun as <- <-. cbn [self]. split; [reflexivity |]. split.
  - rewrite !dom_insert_L. unfold derived_keys. cbn [list_to_set].
    set (D := dom data). clearbody D. union_eq.
  - map_lookup. split; reflexivity.
Qed.







(** ** Process state *)

Lemma insert_desc_head (x : Q * proc_info) (l : list (Q * proc_info)) :
  match insert_desc x l with
  | [] => False
  | h :: _ =>
      match l with
      | [] => h = x
      | y :: _ => (h = y /\ fst x < fst y) \/ (h = x /\ fst y <= fst x)
      end
  end.
Proof.
  destruct l as [| y rest]; cbn; [reflexivity |].
  destruct (Qlt_bool (fst x) (fst y)) eqn:E.
  - left. apply Qlt_bool_iff in E. done.
  - right. apply Qlt_bool_false in E. done.
Qed.

(** The first element of the sorted list has the largest key of the list. *)
Lemma sorted_desc_head (ks : list (Q * proc_info)) :
  match sorted_desc ks with
  | [] => ks = []
  | h :: _ => In h ks /\ forall e, In e ks -> fst e <= fst h
  end.
Proof.
  induction ks as [| k ks IH]; [reflexivity |].
  unfold sorted_desc in *. cbn [foldr].
  pose proof (insert_desc_head k (foldr insert_desc [] ks)) as Hins.
  destruct (insert_desc k (foldr insert_desc [] ks)) as [| h t]; [done |].
  destruct (foldr insert_desc [] ks) as [| y rest].
  - subst. split; [by left |]. intros e [<- | []]. lra.
  - destruct IH as [Hin Hmax].
    destruct Hins as [[-> Hlt] | [-> Hle]].
    + split; [by right |]. intros e [<- | He]; [lra | by apply Hmax].
    + split; [by left |]. intros e [<- | He]; [lra |].
      specialize (Hmax e He). lra.
Qed.

Lemma keyed_spec (ps : list proc_info) (ks : list (Q * proc_info)) :
  keyed ps = Returns ks ->
  (forall c p, In (c, p) ks -> In p ps /\ cpu_percent p = Some c) /\
  (forall p, In p ps -> exists c, cpu_percent p = Some c /\ In (c, p) ks).
Proof.
  revert ks. induction ps as [| p0 ps IH]; intros ks.
  - intros [= <-]. split; [intros c p [] | intros p []].
  - cbn [keyed]. cbv beta iota zeta delta [mbind mret outcome_bind outcome_ret].
    unfold cpu_key. destruct (cpu_percent p0) as [c0 |] eqn:Hc0; [| discriminate].
    cbv beta iota zeta delta [mret outcome_ret].
    destruct (keyed ps) as [ks0 | e]; [| discriminate].
    intros [= <-]. destruct (IH ks0 eq_refl) as [Hsound Hcomplete]. split.
    + intros c p [[= <- <-] | Hin]; [split; [by left | done] |].
      destruct (Hsound _ _ Hin). split; [by right | done].
    + intros p [<- | Hin]; [exists c0; split; [done | by left] |].
      destruct (Hcomplete _ Hin) as (c & Hc & Hk). exists c. split; [done | by right].
Qed.

(** What the [try] block computes for [top_cpu_proc]: the name and
    percentage of a readable process whose CPU percentage is positive and
    maximal among the readable ones. *)
Lemma top_cpu_proc_try_is_maximal env procs processes v :
  psutil_process_iter env = Returns procs ->
  readable procs = Returns processes ->
  top_cpu_proc_try env = Returns (Some v) ->
  exists p c,
    In p processes /\ cpu_percent p = Some c /\ 0 < c /\
    v = VFStr [Lit (str_of_name (name p)); Lit " ("; Num (PFloat c); Lit "%)"] /\
    (forall p' c', In p' processes -> cpu_percent p' = Some c' -> c' <= c).
Proof.
  intros Hiter Hread. unfold top_cpu_proc_try. rewrite Hiter.
  cbv beta iota zeta delta [mbind mret outcome_bind outcome_ret]. rewrite Hread.
  destruct processes as [| p0 rest]; [discriminate |].
  destruct (keyed (p0 :: rest)) as [ks | e] eqn:Hks; [| discriminate].
  destruct (keyed_spec _ _ Hks) as [Hsound Hcomplete].
  pose proof (sorted_desc_head ks) as Hhead.
  destruct (sorted_desc ks) as [| [c p] t]; [discriminate |].
  destruct Hhead as [Hin Hmax].
  destruct (Qlt_bool 0 c) eqn:Hpos; [| discriminate].
  intros [= <-]. apply Qlt_bool_iff in Hpos.
  destruct (Hsound _ _ Hin) as [Hp Hc].
  exists p, c. repeat split; try done.
  intros p' c' Hp' Hc'. destruct (Hcomplete _ Hp') as (c'' & Hc'' & Hk).
  assert (c'' = c') as -> by congruence. exact (Hmax _ Hk).
Qed.

(** The stage never reads what its [try] block computed: the attribute is
    the initial sentinel whenever the stage returns. *)
Lemma _get_process_data_returns env d :
  _get_process_data env = Returns d ->
  dom d = process_keys /\ d !! "Top CPU Process" = Some (VStr "N/A").
Proof.
  unfold _get_process_data.
  cbv beta iota zeta delta [mbind mret outcome_bind outcome_ret].
  destruct (psutil_pids env); [| discriminate].
  destruct (psutil_boot_time env); [| discriminate].
  destruct (psutil_users env); [| discriminate].
  destruct (psutil_num_fds env); [| discriminate].
  intros [= <-]. split.
  - rewrite !dom_insert_L, dom_empty_L. reflexivity.
  - map_lookup. reflexivity.
Qed.

(** C2, the code at an input where the claim requires a process name: two
    readable processes, one of them at [12.5] percent, and one that denies
    access.  The [try] block skips the denied one and computes
    ["python (12.5%)"], the sample succeeds, and the attribute is ["N/A"]. *)
Theorem top_cpu_process_reports_sentinel :
  let env := host_disk_scenario in
  let out := get_detailed_system_data env (mkWorld baseline 0) in
  psutil_process_iter env = Returns two_processes /\
  top_cpu_proc_try env
  = Returns (Some (VFStr [Lit "python"; Lit " ("; Num (PFloat 12.5); Lit "%)"])) /\
  is_returns (fst (try_body env (mkWorld baseline 0))) = true /\
  fst out !! "Top CPU Process" = Some (VStr "N/A").
Proof.
  cbv zeta. repeat split; vm_compute; reflexivity.
Qed.

(** ** Key sets of the stages *)

Lemma _get_static_system_info_keys env boot d :
  _get_static_system_info env boot = Returns d -> dom d = static_keys.
Proof.
  unfold _get_static_system_info. unfold_outcome.
  destruct (psutil_virtual_memory env); [| discriminate].
  intros [= <-]. rewrite !dom_insert_L, dom_empty_L. reflexivity.
Qed.

Lemma __init___keys env s :
  __init__ env = Returns s -> dom (system_info s) = static_keys.
Proof.
  unfold __init__. unfold_outcome.
  destruct (psutil_net_io_counters env); [| discriminate].
  destruct (psutil_disk_io_counters env); [| discriminate].
  destruct (psutil_boot_time env); [| discriminate].
  destruct (_get_static_system_info env _) eqn:Hinfo; [| discriminate].
  intros [= <-]. cbn. by eapply _get_static_system_info_keys.
Qed.

Lemma _get_cpu_data_keys env d :
  _get_cpu_data env = Returns d -> dom d = cpu_keys.
Proof.
  unfold _get_cpu_data. unfold_outcome.
  destruct (psutil_cpu_times_percent env); [| discriminate].
  destruct (psutil_cpu_percent env); [| discriminate].
  destruct (psutil_cpu_freq env) as [[cur |] | e]; [| | discriminate];
    (destruct (psutil_cpu_count_logical env); [| discriminate]);
    (destruct (psutil_cpu_count_physical env); [| discriminate]);
    intros [= <-]; rewrite !dom_insert_L, dom_empty_L; reflexivity.
Qed.

Lemma _get_memory_data_keys env d :
  _get_memory_data env = Returns d -> dom d = memory_keys.
Proof.
  unfold _get_memory_data. unfold_outcome.
  destruct (psutil_virtual_memory env); [| discriminate].
  destruct (psutil_swap_memory env); [| discriminate].
  intros [= <-]. rewrite !dom_insert_L, dom_empty_L. reflexivity.
Qed.

(** The sensor stage leaves the collector alone; when it returns, both
    sensor queries returned and its two keys are present. *)
Lemma _get_sensor_data_run env w :
  self (snd (_get_sensor_data env w)) = self w /\
  (forall d, fst (_get_sensor_data env w) = Returns d ->
     dom d = sensor_keys /\
     is_returns (psutil_sensors_temperatures env) = true /\
     is_returns (psutil_sensors_fans env) = true) /\
  (is_returns (psutil_sensors_temperatures env)
   && is_returns (psutil_sensors_fans env) = true ->
   is_returns (fst (_get_sensor_data env w)) = true).
Proof.
  destruct w as [s n]. unfold _get_sensor_data. unfold_M.
  destruct (psutil_sensors_temperatures env) as [temps | e];
    [| repeat split; intros; discriminate].
  destruct (psutil_sensors_fans env) as [fans | e];
    [| repeat split; intros; discriminate].
  repeat match goal with
         | |- context [if Qlt_bool 0 ?x then _ else _] => destruct (Qlt_bool 0 x)
         end;
    (split; [reflexivity |]); (split; [| reflexivity]);
    intros d [= <-]; (split; [| done]);
    rewrite !dom_insert_L, dom_empty_L; reflexivity.
Qed.

Lemma _calculate_conceptual_flux_metrics_self env data w :
  self (snd (_calculate_conceptual_flux_metrics env data w)) = self w.
Proof.
  destruct w as [s n]. unfold _calculate_conceptual_flux_metrics. unfold_M.
  repeat match goal with
         | |- context [py_float ?v] => destruct (py_float v); [| reflexivity]
         end.
  match goal with
  | |- context [as_num ?v] => destruct (as_num v); reflexivity
  end.
Qed.

(** ** The sampling call, stage by stage *)

(** How the [try] body ends: before the rate stage, inside it, after it, or
    with a snapshot. *)
Lemma collect_cases env s n ct td :
  let run := collect env ct td (mkWorld s n) in
  (instant_stages_return env = false /\
   exists e, fst run = Raises e /\ self (snd run) = s)
  \/
  (instant_stages_return env = true /\
   exists e n1 w2,
     _get_io_data env td (mkWorld s n1) = (Raises e, w2) /\ run = (Raises e, w2))
  \/
  (instant_stages_return env = true /\
   exists io n1 w2 e,
     _get_io_data env td (mkWorld s n1) = (Returns io, w2) /\
     fst run = Raises e /\ self (snd run) = with_call_time (self w2) ct)
  \/
  (instant_stages_return env = true /\
   exists io n1 w2 d,
     _get_io_data env td (mkWorld s n1) = (Returns io, w2) /\
     fst run = Returns d /\ self (snd run) = with_call_time (self w2) ct /\
     is_returns (_get_process_data env) = true /\
     dom d = dom (system_info s) ∪ sampled_keys).
Proof.
  cbv zeta. unfold collect, instant_stages_return. unfold_M.
  destruct (_get_cpu_data env) as [cpu | e] eqn:Hcpu;
    [| left; split; [reflexivity | by exists e]].
  destruct (_get_memory_data env) as [mem | e] eqn:Hmem;
    [| left; split; [reflexivity | by exists e]].
  destruct (_get_gpu_data_total env (mkWorld s n)) as (gpu & n1 & Hgpu & Hgpu_keys).
  rewrite Hgpu. cbn [self].
  pose proof (_get_sensor_data_run env (mkWorld s n1)) as (Hself & Hret & Hboth).
  destruct (_get_sensor_data env (mkWorld s n1)) as [[sensors | e] [s2 n2]];
    cbn [self snd fst] in *; subst s2.
  2: { left. split; [| by exists e].
       destruct (is_returns (psutil_sensors_temperatures env)
                 && is_returns (psutil_sensors_fans env)) eqn:E.
       - specialize (Hboth eq_refl). discriminate.
       - cbn [is_returns]. by rewrite <- andb_assoc, E. }
  destruct (Hret sensors eq_refl) as (Hsensor_keys & Htemps & Hfans).
  assert (true && true && is_returns (psutil_sensors_temperatures env)
          && is_returns (psutil_sensors_fans env) = true) as Hinstant
    by (rewrite Htemps, Hfans; reflexivity).
  cbn [is_returns]. rewrite Hinstant. right.
  destruct (_get_io_data env td (mkWorld s n2)) as [[io | e] [s3 n3]] eqn:Hio.
  2: { left. split; [reflexivity |]. by exists e, n2, (mkWorld s3 n3). }
  right. cbn [self].
  destruct (_get_io_data_returns _ _ _ _ _ Hio) as (_ & _ & _ & _ & _ & Hio_keys & _).
  destruct (_get_process_data env) as [proc | e] eqn:Hproc.
  2: { left. split; [reflexivity |]. by exists io, n2, (mkWorld s3 n3), e. }
  match goal with
  | |- context [_calculate_conceptual_flux_metrics env ?data ?w] =>
      pose proof (_calculate_conceptual_flux_metrics_self env data w) as Hkeep;
      pose proof (_calculate_conceptual_flux_metrics_returns env data w) as Hderived;
      destruct (_calculate_conceptual_flux_metrics env data w) as [[d | e] w4]
  end; cbn [self snd fst] in *.
  { right. split; [reflexivity |]. exists io, n2, (mkWorld s3 n3), d.
    do 3 (split; [done |]). split; [reflexivity |].
    destruct (Hderived d w4 eq_refl) as (_ & -> & _).
    destruct (_get_process_data_returns _ _ Hproc) as [Hproc_keys _].
    unfold dict_update. rewrite !dom_union_L, dom_insert_L, ?dom_union_L, ?dom_empty_L.
    rewrite Hproc_keys, Hio_keys, Hsensor_keys, Hgpu_keys.
    rewrite (_get_memory_data_keys _ _ Hmem), (_get_cpu_data_keys _ _ Hcpu).
    unfold sampled_keys. set (D := dom (system_info s)). clearbody D.
    apply set_eq. intros x. rewrite !elem_of_union, ?elem_of_empty. tauto. }
  left. split; [reflexivity |]. by exists io, n2, (mkWorld s3 n3), e.
Qed.

(** Where a raising rate stage leaves the collector. *)
Lemma _get_io_data_raises env td s n e w2 :
  _get_io_data env td (mkWorld s n) = (Raises e, w2) ->
  (is_returns (psutil_disk_io_counters env) = false /\ self w2 = s)
  \/ (exists disk,
        psutil_disk_io_counters env = Returns disk /\
        is_returns (psutil_net_io_counters env) = false /\
        rate_tail_returns env = false /\
        self w2 = with_counters s disk (last_net_io s))
  \/ (exists disk net,
        psutil_disk_io_counters env = Returns disk /\
        psutil_net_io_counters env = Returns net /\
        rate_tail_returns env = false /\
        self w2 = with_counters s disk net).
Proof.
  intros Hrun. pose proof (_get_io_data_run env td s n) as H.
  unfold rate_tail_returns.
  destruct (psutil_disk_io_counters env) as [disk | e0].
  2: { left. rewrite H in Hrun. injection Hrun as _ <-. done. }
  cbv zeta in H. right.
  destruct (psutil_net_io_counters env) as [net | e0].
  2: { left. rewrite H in Hrun. injection Hrun as _ <-. by exists disk. }
  right. exists disk, net.
  destruct (psutil_net_connections env) as [conns | e0].
  2: { rewrite H in Hrun. injection Hrun as _ <-. done. }
  destruct (psutil_disk_partitions env) as [parts | e0].
  2: { rewrite H in Hrun. injection Hrun as _ <-. done. }
  destruct H as (d & Hd & _). congruence.
Qed.

Lemma _get_io_data_returns_queries env td w d w' :
  _get_io_data env td w = (Returns d, w') ->
  is_returns (psutil_disk_io_counters env) = true /\ rate_tail_returns env = true.
Proof.
  destruct w as [s n]. intros Hrun. pose proof (_get_io_data_run env td s n) as H.
  unfold rate_tail_returns.
  destruct (psutil_disk_io_counters env); [| congruence].
  destruct (psutil_net_io_counters env); [| cbv zeta in H; congruence].
  destruct (psutil_net_connections env); [| cbv zeta in H; congruence].
  destruct (psutil_disk_partitions env); [| cbv zeta in H; congruence].
  done.
Qed.

(** ** Snapshots *)

(** A returning [try] body yields all the sampled keys on top of the cached
    static facts, which it keeps. *)
Lemma try_body_returns env w d w' :
  try_body env w = (Returns d, w') ->
  dom d = dom (system_info (self w)) ∪ sampled_keys /\
  system_info (self w') = system_info (self w) /\
  all_stages_return env = true.
Proof.
  destruct w as [s n]. unfold try_body. cbn [self]. intros Hrun.
  pose proof (collect_cases env s n (time_time env)
                (time_time env - last_call_time s)) as Hcases.
  cbv zeta in Hcases. rewrite Hrun in Hcases. cbn [fst snd] in Hcases.
  destruct Hcases as [(_ & e & He & _) | [(_ & e & n1 & w2 & _ & He)
                     | [(_ & io & n1 & w2 & e & _ & He & _)
                     | (Hinst & io & n1 & w2 & d0 & Hio & Hd & Hself & Hproc & Hdom)]]];
    try discriminate.
  injection Hd as <-.
  destruct (_get_io_data_returns _ _ _ _ _ Hio) as (disk & net & _ & _ & Hw2 & _).
  destruct (_get_io_data_returns_queries _ _ _ _ _ Hio) as [Hdisk Htail].
  split; [exact Hdom |]. split.
  - rewrite Hself, Hw2. reflexivity.
  - unfold all_stages_return. by rewrite Hinst, Hdisk, Htail, Hproc.
Qed.

(** C3.  Two consecutive successful sampling calls on one collector return
    snapshots with the same key set, whatever the two hosts answer (GPU or
    sensors present or not): the sampled keys on top of the cached static
    facts.  For a collector built by the constructor this is the full set
    of documented attributes. *)
Theorem snapshot_keys_stable env1 env2 w d1 w1 d2 w2 :
  try_body env1 w = (Returns d1, w1) ->
  try_body env2 w1 = (Returns d2, w2) ->
  get_detailed_system_data env1 w = (d1, w1) /\
  get_detailed_system_data env2 w1 = (d2, w2) /\
  dom d1 = dom d2 /\
  dom d1 = dom (system_info (self w)) ∪ sampled_keys /\
  (forall env0, __init__ env0 = Returns (self w) ->
     dom d1 = documented_keys /\ dom d2 = documented_keys).
Proof.
  intros H1 H2.
  destruct (try_body_returns _ _ _ _ H1) as (Hd1 & Hinfo1 & _).
  destruct (try_body_returns _ _ _ _ H2) as (Hd2 & _ & _).
  rewrite Hinfo1 in Hd2.
  split; [unfold get_detailed_system_data; by rewrite H1 |].
  split; [unfold get_detailed_system_data; by rewrite H2 |].
  split; [congruence |]. split; [exact Hd1 |].
  intros env0 Hinit. apply __init___keys in Hinit.
  rewrite Hd1, Hd2, Hinit. done.
Qed.

Lemma snapshot_keys_stable_witness :
  let w := mkWorld baseline 0 in
  let first := try_body host_disk_scenario w in
  let second := try_body host_with_gpu (snd first) in
  dom (returned (fst first)) = dom (returned (fst second)).
Proof.
  intros w first second.
  destruct (snapshot_keys_stable host_disk_scenario host_with_gpu w
              (returned (fst first)) (snd first)
              (returned (fst second)) (snd second)) as (_ & _ & H & _).
  - apply returned_eta. vm_compute. reflexivity.
  - apply returned_eta. vm_compute. reflexivity.
  - exact H.
Defined.

(** ** Failed calls *)

Lemma get_detailed_system_data_raises env w e w' :
  try_body env w = (Raises e, w') ->
  get_detailed_system_data env w = (error_map e, w').
Proof. intros H. unfold get_detailed_system_data. by rewrite H. Qed.

(** C10.  The sampling call is a total function to a mapping: no exception
    leaves it.  When a stage raises (any of the stages whose queries can
    fail), the [try] body raises; and whenever the [try] body raises [e] the
    call returns the mapping whose only key is ["Error"], bound to
    ["Failed to collect data: "] followed by [str(e)]. *)
Theorem sampling_failure_is_error_map env w :
  (all_stages_return env = false -> is_returns (fst (try_body env w)) = false) /\
  (forall e w', try_body env w = (Raises e, w') ->
     get_detailed_system_data env w = (error_map e, w') /\
     dom (error_map e) = {["Error"]} /\
     error_map e !! "Error" = Some (VStr ("Failed to collect data: " ++ exn_msg e)) /\
     (forall k, k ≠ "Error" -> error_map e !! k = None)) /\
  (forall d w', try_body env w = (Returns d, w') ->
     get_detailed_system_data env w = (d, w')).
Proof.
  split; [| split].
  - intros Hfail. destruct (try_body env w) as [[d | e] w'] eqn:Hrun; [| reflexivity].
    destruct (try_body_returns _ _ _ _ Hrun) as (_ & _ & Hall). congruence.
  - intros e w' Hrun. split; [by apply get_detailed_system_data_raises |].
    unfold error_map. split; [apply dom_singleton_L |].
    split; [apply lookup_singleton_eq |].
    intros k Hk. by apply lookup_singleton_ne.
  - intros d w' Hrun. unfold get_detailed_system_data. by rewrite Hrun.
Qed.

Lemma sampling_failure_is_error_map_witness :
  let w := mkWorld baseline 0 in
  fst (get_detailed_system_data host_no_sensors w)
  = error_map (mkExn AttributeError
                 "module 'psutil' has no attribute 'sensors_temperatures'").
Proof.
  intros w.
  destruct (sampling_failure_is_error_map host_no_sensors w) as (_ & Hraise & _).
  destruct (Hraise (mkExn AttributeError
                      "module 'psutil' has no attribute 'sensors_temperatures'")
                   (snd (try_body host_no_sensors w))) as (Hout & _).
  - vm_compute. reflexivity.
  - rewrite Hout. reflexivity.
Defined.

(** C1, as stated, refuted: [psutil.users()] fails in the process stage,
    which runs after the rate stage and after the timestamp was stored; the
    call is reported as failed, and the last timestamp has moved from [100]
    to [101] with the disk counters advanced as well. *)
Lemma failed_call_advances_rate_state :
  let w := mkWorld baseline 0 in
  let out := get_detailed_system_data host_users_fail w in
  fst (try_body host_users_fail w)
  = Raises (mkExn OSError "[Errno 2] No such file or directory: '/var/run/utmp'") /\
  dom (fst out) = {["Error"]} /\
  last_call_time baseline = 100 /\
  last_call_time (self (snd out)) = 101 /\
  last_call_time (self (snd out)) <> last_call_time baseline /\
  rate_state (self (snd out)) <> rate_state baseline.
Proof.
  cbv zeta. split; [vm_compute; reflexivity |].
  split.
  { rewrite (get_detailed_system_data_raises _ _
               (mkExn OSError "[Errno 2] No such file or directory: '/var/run/utmp'")
               (snd (try_body host_users_fail (mkWorld baseline 0)))).
    - apply dom_singleton_L.
    - vm_compute. reflexivity. }
  split; [reflexivity |]. split; [vm_compute; reflexivity |].
  split; vm_compute; discriminate.
Qed.

(** C1, amended.  When a stage raises, the call is reported as failed and
    the cached static facts are kept.  RateState is exactly what it was
    before the call when the failure happens no later than the disk counter
    query, that is, in the CPU, memory or sensor stage or in that query.  A
    later failure inside the rate stage leaves the last timestamp unchanged,
    the disk counters advanced to the current reading, and the network
    counters advanced if they were read.  A failure after the rate stage
    leaves the counters and the timestamp advanced to the current readings. *)
Theorem failed_call_rate_state env w e w' :
  try_body env w = (Raises e, w') ->
  get_detailed_system_data env w = (error_map e, w') /\
  system_info (self w') = system_info (self w) /\
  (instant_stages_return env && is_returns (psutil_disk_io_counters env) = false ->
   rate_state (self w') = rate_state (self w)) /\
  (instant_stages_return env = true ->
   forall disk, psutil_disk_io_counters env = Returns disk ->
   rate_tail_returns env = false ->
   last_call_time (self w') = last_call_time (self w) /\
   last_disk_io (self w') = disk /\
   (forall net, psutil_net_io_counters env = Returns net ->
                last_net_io (self w') = net) /\
   (is_returns (psutil_net_io_counters env) = false ->
    last_net_io (self w') = last_net_io (self w))) /\
  (instant_stages_return env = true ->
   forall disk net,
     psutil_disk_io_counters env = Returns disk ->
     psutil_net_io_counters env = Returns net ->
     rate_tail_returns env = true ->
     rate_state (self w') = (disk, net, time_time env)).
Proof.
  intros Hrun. split; [by apply get_detailed_system_data_raises |].
  destruct w as [s n]. unfold try_body in Hrun. cbn [self] in *.
  pose proof (collect_cases env s n (time_time env)
                (time_time env - last_call_time s)) as Hcases.
  cbv zeta in Hcases. rewrite Hrun in Hcases. cbn [fst snd] in Hcases.
  destruct Hcases as [(Hinst & _ & _ & Hself)
                     | [(Hinst & e1 & n1 & w2 & Hio & Hw)
                     | [(Hinst & io & n1 & w2 & e1 & Hio & _ & Hself)
                     | (_ & io & n1 & w2 & d0 & _ & Hd & _)]]];
    [| | | discriminate].
  - (* before the rate stage *)
    subst s. rewrite Hinst. repeat split; try done; intros; congruence.
  - (* inside the rate stage *)
    injection Hw as _ <-. rewrite Hinst.
    destruct (_get_io_data_raises _ _ _ _ _ _ Hio)
      as [[Hdisk ->] | [(disk & Hdisk & Hnet & Htail & ->)
                       | (disk & net & Hdisk & Hnet & Htail & ->)]].
    + rewrite Hdisk. repeat split; try done; intros; rewrite H0 in Hdisk; discriminate.
    + rewrite Hdisk. cbn [is_returns andb with_counters system_info].
      split; [reflexivity |]. split; [discriminate |]. split.
      * intros _ disk' [= <-] _. cbn. repeat split; try done.
        intros net Hnet'. rewrite Hnet' in Hnet. discriminate.
      * intros _ disk' net' _ _ Htail'. congruence.
    + rewrite Hdisk, Hnet. cbn [is_returns andb with_counters system_info].
      split; [reflexivity |]. split; [discriminate |]. split.
      * intros _ disk' [= <-] _. cbn. repeat split; try done.
        intros net' [= <-]. reflexivity.
      * intros _ disk' net' _ _ Htail'. congruence.
  - (* after the rate stage *)
    destruct (_get_io_data_returns _ _ _ _ _ Hio) as (disk & net & Hdisk & Hnet & Hw2 & _).
    destruct (_get_io_data_returns_queries _ _ _ _ _ Hio) as [_ Htail].
    rewrite Hself, Hw2, Hinst, Hdisk, Hnet, Htail. cbn [self].
    split; [reflexivity |]. split; [discriminate |]. split; [intros; discriminate |].
    intros _ disk' net' [= <-] [= <-] _. reflexivity.
Qed.

Lemma failed_call_rate_state_witness :
  let w := mkWorld baseline 0 in
  rate_state (self (snd (try_body host_disk_fail w))) = rate_state baseline /\
  last_call_time (self (snd (try_body host_net_fail w))) = last_call_time baseline /\
  last_disk_io (self (snd (try_body host_net_fail w)))
  = {| read_bytes := 3048000; write_bytes := 500000 |}.
Proof.
  intros w. split.
  - destruct (failed_call_rate_state host_disk_fail w
                (mkExn OSError "can't read /proc/diskstats")
                (snd (try_body host_disk_fail w))) as (_ & _ & H & _).
    + vm_compute. reflexivity.
    + apply H. reflexivity.
  - destruct (failed_call_rate_state host_net_fail w
                (mkExn OSError "can't read /proc/net/dev")
                (snd (try_body host_net_fail w))) as (_ & _ & _ & H & _).
    + vm_compute. reflexivity.
    + destruct (H eq_refl {| read_bytes := 3048000; write_bytes := 500000 |}
                  eq_refl eq_refl) as (Ht & Hd & _).
      split; [exact Ht | exact Hd].
Defined.

(** * Further properties of the collector *)

(** ** The data a successful call collects *)

Lemma lookup_union_skip (m1 m2 : gmap string pyval) (k : string) :
  k ∉ dom m1 -> (m1 ∪ m2) !! k = m2 !! k.
Proof. intros Hk. apply lookup_union_r. by apply not_elem_of_dom. Qed.

(** The [try] body, once every stage has returned, is the derived-indicator
    stage run on the union of the stage results. *)
Lemma try_body_stages env s n cpu mem gpu n1 sensors n2 io w2 proc :
  _get_cpu_data env = Returns cpu ->
  _get_memory_data env = Returns mem ->
  _get_gpu_data env (mkWorld s n) = (Returns gpu, mkWorld s n1) ->
  _get_sensor_data env (mkWorld s n1) = (Returns sensors, mkWorld s n2) ->
  _get_io_data env (time_time env - last_call_time s) (mkWorld s n2) = (Returns io, w2) ->
  _get_process_data env = Returns proc ->
  try_body env (mkWorld s n)
  = _calculate_conceptual_flux_metrics env (collected env s cpu mem gpu sensors io proc)
      (mkWorld (with_call_time (self w2) (time_time env)) (draws w2)).
Proof.
  intros Hcpu Hmem Hgpu Hsens Hio Hproc.
  unfold try_body, collect. unfold_M.
  rewrite Hcpu, Hmem, Hgpu. cbn [self draws]. rewrite Hsens. cbn [self draws].
  rewrite Hio, Hproc. destruct w2 as [s2 n3]. reflexivity.
Qed.

(** A returning [try] body went through every stage. *)
Lemma try_body_success env s n d w' :
  try_body env (mkWorld s n) = (Returns d, w') ->
  exists cpu mem gpu n1 sensors n2 io w2 proc,
    _get_cpu_data env = Returns cpu /\
    _get_memory_data env = Returns mem /\
    _get_gpu_data env (mkWorld s n) = (Returns gpu, mkWorld s n1) /\
    _get_sensor_data env (mkWorld s n1) = (Returns sensors, mkWorld s n2) /\
    _get_io_data env (time_time env - last_call_time s) (mkWorld s n2)
    = (Returns io, w2) /\
    _get_process_data env = Returns proc /\
    _calculate_conceptual_flux_metrics env (collected env s cpu mem gpu sensors io proc)
      (mkWorld (with_call_time (self w2) (time_time env)) (draws w2))
    = (Returns d, w').
Proof.
  intros Hrun.
  destruct (_get_cpu_data env) as [cpu | e] eqn:Hcpu.
  2: { unfold try_body, collect in Hrun. unfold_M. rewrite Hcpu in Hrun. discriminate. }
  destruct (_get_memory_data env) as [mem | e] eqn:Hmem.
  2: { unfold try_body, collect in Hrun. unfold_M. rewrite Hcpu, Hmem in Hrun.
       discriminate. }
  destruct (_get_gpu_data_total env (mkWorld s n)) as (gpu & n1 & Hgpu & _).
  cbn [self] in Hgpu.
  pose proof (_get_sensor_data_run env (mkWorld s n1)) as (Hself & _ & _).
  destruct (_get_sensor_data env (mkWorld s n1)) as [[sensors | e] [s2 n2]] eqn:Hsens;
    cbn [self snd] in Hself; subst s2.
  2: { unfold try_body, collect in Hrun. unfold_M.
       rewrite Hcpu, Hmem, Hgpu in Hrun. cbn [self draws] in Hrun.
       rewrite Hsens in Hrun. discriminate. }
  destruct (_get_io_data env (time_time env - last_call_time s) (mkWorld s n2))
    as [[io | e] w2] eqn:Hio.
  2: { unfold try_body, collect in Hrun. unfold_M.
       rewrite Hcpu, Hmem, Hgpu in Hrun. cbn [self draws] in Hrun.
       rewrite Hsens in Hrun. cbn [self draws] in Hrun. rewrite Hio in Hrun.
       discriminate. }
  destruct (_get_process_data env) as [proc | e] eqn:Hproc.
  2: { unfold try_body, collect in Hrun. unfold_M.
       rewrite Hcpu, Hmem, Hgpu in Hrun. cbn [self draws] in Hrun.
       rewrite Hsens in Hrun. cbn [self draws] in Hrun. rewrite Hio, Hproc in Hrun.
       destruct w2. discriminate. }
  exists cpu, mem, gpu, n1, sensors, n2, io, w2, proc.
  rewrite <- Hproc in *.
  rewrite (try_body_stages env s n cpu mem gpu n1 sensors n2 io w2 proc) in Hrun
    by (rewrite ?Hproc; done).
  rewrite Hproc in *. done.
Qed.

(** ** The derived-indicator stage *)




(** The stage adds its eight attributes and changes no other one. *)
Lemma _calculate_conceptual_flux_metrics_keeps env data w d w' k :
  _calculate_conceptual_flux_metrics env data w = (Returns d, w') ->
  k ∉ derived_keys ->
  d !! k = data !! k.
Proof.
  destruct w as [s n]. unfold _calculate_conceptual_flux_metrics. unfold_M.
  repeat match goal with
         | |- context [py_float (dict_get data ?k0 (VFloat 0))] =>
             destruct (py_float (dict_get data k0 (VFloat 0))); [| discriminate]
         end.
  match goal with
  | |- context [as_num ?v] => destruct (as_num v); [| discriminate]
  end.
  intros Hrun Hk. injection Hrun as <- _.
  unfold derived_keys in Hk. rewrite elem_of_list_to_set in Hk.
  repeat (rewrite lookup_insert_ne;
          [| intros <-; apply Hk; repeat first [by left | right]]).
  reflexivity.
Qed.


(** A returning derived-indicator stage adds its eight attributes, changes
    no other attribute of the collected data, and leaves the collector
    alone. *)
Theorem derived_stage_adds_eight_attributes env data w d w' :
  _calculate_conceptual_flux_metrics env data w = (Returns d, w') ->
  dom d = derived_keys ∪ dom data /\
  (forall k, k ∉ derived_keys -> d !! k = data !! k) /\
  self w' = self w.
Proof.
  intros Hrun.
  destruct (_calculate_conceptual_flux_metrics_returns _ _ _ _ _ Hrun) as (Hself & Hdom & _).
  split; [exact Hdom |]. split; [| exact Hself].
  intros k Hk. by eapply _calculate_conceptual_flux_metrics_keeps.
Qed.

Lemma derived_stage_adds_eight_attributes_witness :
  let w := mkWorld baseline 0 in
  let out := _calculate_conceptual_flux_metrics host_disk_scenario scenario_data w in
  returned (fst out) !! "CPU Usage (%)" = Some (VFloat 90).
Proof.
  intros w out.
  destruct (derived_stage_adds_eight_attributes host_disk_scenario scenario_data w
              (returned (fst out)) (snd out)) as (_ & Hkeep & _).
  - apply returned_eta. vm_compute. reflexivity.
  - rewrite Hkeep; [reflexivity |].
    apply (bool_decide_unpack _). vm_compute. exact I.
Defined.

(** ** What the stages store under the keys the derived indicators read *)






(** The data handed to the derived-indicator stage: each stage's values are
    those of the stage, later stages having other keys. *)
Lemma collected_lookup env s cpu mem gpu sensors io proc :
  dom cpu = cpu_keys -> dom mem = memory_keys -> dom gpu = gpu_keys ->
  dom sensors = sensor_keys -> dom io = io_keys -> dom proc = process_keys ->
  let data := collected env s cpu mem gpu sensors io proc in
  (forall k, k ∈ process_keys -> data !! k = proc !! k) /\
  (forall k, k ∈ io_keys -> data !! k = io !! k) /\
  (forall k, k ∈ sensor_keys -> data !! k = sensors !! k) /\
  (forall k, k ∈ gpu_keys -> data !! k = gpu !! k) /\
  (forall k, k ∈ memory_keys -> data !! k = mem !! k) /\
  (forall k, k ∈ cpu_keys -> data !! k = cpu !! k) /\
  data !! "Timestamp" = Some (VStr (datetime_now env)) /\
  (forall k, k ∉ sampled_keys -> data !! k = system_info s !! k).
Proof.
  intros Hcpu Hmem Hgpu Hsens Hio Hproc. cbv zeta. unfold collected.
  assert (forall (m1 m2 : gmap string pyval) k,
            k ∈ dom m1 -> (m1 ∪ m2) !! k = m1 !! k) as Hhit.
  { intros m1 m2 k [v Hv]%elem_of_dom. rewrite Hv. by apply lookup_union_Some_l. }
  assert (process_keys ## io_keys ∪ sensor_keys ∪ gpu_keys ∪ memory_keys ∪ cpu_keys
          ∪ {["Timestamp"]}) as D1 by (apply (bool_decide_unpack _); vm_compute; exact I).
  assert (io_keys ## sensor_keys ∪ gpu_keys ∪ memory_keys ∪ cpu_keys ∪ {["Timestamp"]})
    as D2 by (apply (bool_decide_unpack _); vm_compute; exact I).
  assert (sensor_keys ## gpu_keys ∪ memory_keys ∪ cpu_keys ∪ {["Timestamp"]})
    as D3 by (apply (bool_decide_unpack _); vm_compute; exact I).
  assert (gpu_keys ## memory_keys ∪ cpu_keys ∪ {["Timestamp"]})
    as D4 by (apply (bool_decide_unpack _); vm_compute; exact I).
  assert (memory_keys ## cpu_keys ∪ {["Timestamp"]})
    as D5 by (apply (bool_decide_unpack _); vm_compute; exact I).
  assert ("Timestamp" ∉ cpu_keys)
    as D6 by (apply (bool_decide_unpack _); vm_compute; exact I).
  assert (forall (X Y : gset string) k, X ## Y -> k ∈ Y -> k ∉ X) as Hother.
  { intros X Y k HD HY HX. exact (HD k HX HY). }
  rewrite <- Hproc in D1. rewrite <- Hio in D2. rewrite <- Hsens in D3.
  rewrite <- Hgpu in D4. rewrite <- Hmem in D5. rewrite <- Hcpu in D6.
  assert (forall k, k ∉ sampled_keys ->
            (k ∉ dom proc) /\ (k ∉ dom io) /\ (k ∉ dom sensors) /\ (k ∉ dom gpu)
            /\ (k ∉ dom mem) /\ (k ∉ dom cpu) /\ ("Timestamp" ≠ k)) as Hstatic.
  { rewrite Hproc, Hio, Hsens, Hgpu, Hmem, Hcpu. clear.
    intros k Hk. unfold sampled_keys in Hk. rewrite !not_elem_of_union in Hk.
    repeat split; try tauto. intros <-. destruct Hk as [[[[[[[Hk _] _] _] _] _] _] _].
    apply Hk. by apply elem_of_singleton. }
  repeat split.
  - intros k Hk. apply Hhit. by rewrite Hproc.
  - intros k Hk. rewrite lookup_union_skip by other_stage Hother D1.
    apply Hhit. by rewrite Hio.
  - intros k Hk. rewrite lookup_union_skip by other_stage Hother D1.
    rewrite lookup_union_skip by other_stage Hother D2.
    apply Hhit. by rewrite Hsens.
  - intros k Hk. rewrite lookup_union_skip by other_stage Hother D1.
    rewrite lookup_union_skip by other_stage Hother D2.
    rewrite lookup_union_skip by other_stage Hother D3.
    apply Hhit. by rewrite Hgpu.
  - intros k Hk. rewrite lookup_union_skip by other_stage Hother D1.
    rewrite lookup_union_skip by other_stage Hother D2.
    rewrite lookup_union_skip by other_stage Hother D3.
    rewrite lookup_union_skip by other_stage Hother D4.
    apply Hhit. by rewrite Hmem.
  - intros k Hk. rewrite lookup_union_skip by other_stage Hother D1.
    rewrite lookup_union_skip by other_stage Hother D2.
    rewrite lookup_union_skip by other_stage Hother D3.
    rewrite lookup_union_skip by other_stage Hother D4.
    rewrite lookup_union_skip by other_stage Hother D5.
    apply Hhit. by rewrite Hcpu.
  - rewrite lookup_union_skip by other_stage Hother D1.
    rewrite lookup_union_skip by other_stage Hother D2.
    rewrite lookup_union_skip by other_stage Hother D3.
    rewrite lookup_union_skip by other_stage Hother D4.
    rewrite lookup_union_skip by other_stage Hother D5.
    rewrite lookup_union_skip by exact D6.
    apply lookup_insert_eq.
  - intros k Hk. destruct (Hstatic k Hk) as (H1 & H2 & H3 & H4 & H5 & H6 & H7).
    rewrite !lookup_union_skip by assumption.
    rewrite lookup_insert_ne by assumption.
    by rewrite (right_id_L ∅ (∪)).
Qed.

(** The snapshot of a successful call holds, under each stage's keys, what
    that stage returned, and under any other key what the cached static
    facts hold. *)
Lemma try_body_lookup env s n d w' :
  try_body env (mkWorld s n) = (Returns d, w') ->
  exists cpu mem gpu n1 sensors n2 io w2 proc,
    (_get_cpu_data env = Returns cpu /\
     _get_memory_data env = Returns mem /\
     _get_gpu_data env (mkWorld s n) = (Returns gpu, mkWorld s n1) /\
     _get_sensor_data env (mkWorld s n1) = (Returns sensors, mkWorld s n2) /\
     _get_io_data env (time_time env - last_call_time s) (mkWorld s n2)
     = (Returns io, w2) /\
     _get_process_data env = Returns proc) /\
    self w' = with_call_time (self w2) (time_time env) /\
    (forall k, k ∈ process_keys -> d !! k = proc !! k) /\
    (forall k, k ∈ io_keys -> d !! k = io !! k) /\
    (forall k, k ∈ sensor_keys -> d !! k = sensors !! k) /\
    (forall k, k ∈ gpu_keys -> d !! k = gpu !! k) /\
    (forall k, k ∈ memory_keys -> d !! k = mem !! k) /\
    (forall k, k ∈ cpu_keys -> d !! k = cpu !! k) /\
    d !! "Timestamp" = Some (VStr (datetime_now env)) /\
    (forall k, k ∉ sampled_keys -> d !! k = system_info s !! k).
Proof.
  intros Hrun.
  destruct (try_body_success _ _ _ _ _ Hrun)
    as (cpu & mem & gpu & n1 & sensors & n2 & io & w2 & proc
        & Hcpu & Hmem & Hgpu & Hsens & Hio & Hproc & Hderived).
  exists cpu, mem, gpu, n1, sensors, n2, io, w2, proc.
  split; [done |].
  destruct (_calculate_conceptual_flux_metrics_returns _ _ _ _ _ Hderived)
    as (Hself & _).
  split; [exact Hself |].
  destruct (_get_gpu_data_total env (mkWorld s n)) as (gpu' & n1' & Hgpu' & Hgpu_keys).
  rewrite Hgpu in Hgpu'. injection Hgpu' as <- <-.
  pose proof (_get_sensor_data_run env (mkWorld s n1)) as (_ & Hsens_keys & _).
  rewrite Hsens in Hsens_keys. destruct (Hsens_keys sensors eq_refl) as [Hsk _].
  destruct (_get_io_data_returns _ _ _ _ _ Hio) as (_ & _ & _ & _ & _ & Hio_keys & _).
  destruct (_get_process_data_returns _ _ Hproc) as [Hproc_keys _].
  destruct (collected_lookup env s cpu mem gpu sensors io proc
              (_get_cpu_data_keys _ _ Hcpu) (_get_memory_data_keys _ _ Hmem)
              Hgpu_keys Hsk Hio_keys Hproc_keys)
    as (L1 & L2 & L3 & L4 & L5 & L6 & L7 & L8).
  assert (derived_keys ## process_keys ∪ io_keys ∪ sensor_keys ∪ gpu_keys
          ∪ memory_keys ∪ cpu_keys ∪ {["Timestamp"]}) as D
    by (apply (bool_decide_unpack _); vm_compute; exact I).
  assert (forall k, k ∈ process_keys ∪ io_keys ∪ sensor_keys ∪ gpu_keys
                    ∪ memory_keys ∪ cpu_keys ∪ {["Timestamp"]} ->
                    d !! k = collected env s cpu mem gpu sensors io proc !! k) as Hkeep.
  { intros k Hk. apply (_calculate_conceptual_flux_metrics_keeps _ _ _ _ _ _ Hderived).
    intros Hd. exact (D k Hd Hk). }
  repeat split.
  - intros k Hk. rewrite Hkeep by (rewrite !elem_of_union; tauto). by apply L1.
  - intros k Hk. rewrite Hkeep by (rewrite !elem_of_union; tauto). by apply L2.
  - intros k Hk. rewrite Hkeep by (rewrite !elem_of_union; tauto). by apply L3.
  - intros k Hk. rewrite Hkeep by (rewrite !elem_of_union; tauto). by apply L4.
  - intros k Hk. rewrite Hkeep by (rewrite !elem_of_union; tauto). by apply L5.
  - intros k Hk. rewrite Hkeep by (rewrite !elem_of_union; tauto). by apply L6.
  - rewrite Hkeep by (rewrite !elem_of_union, elem_of_singleton; tauto). exact L7.
  - intros k Hk.
    rewrite (_calculate_conceptual_flux_metrics_keeps _ _ _ _ _ k Hderived).
    + by apply L8.
    + intros Hd. apply Hk. clear -Hd. unfold sampled_keys. rewrite !elem_of_union. tauto.
Qed.

(** ** Success of the sampling call *)



(** A successful call stores the counters it read and the time of the
    call, and keeps the boot time and the cached static facts. *)
Theorem successful_call_advances_rate_state env w d w' :
  try_body env w = (Returns d, w') ->
  exists disk net,
    psutil_disk_io_counters env = Returns disk /\
    psutil_net_io_counters env = Returns net /\
    self w' = mkMonitor net disk (time_time env)
                        (system_boot_time (self w)) (system_info (self w)).
Proof.
  destruct w as [s n]. intros Hrun.
  destruct (try_body_lookup _ _ _ _ _ Hrun)
    as (cpu & mem & gpu & n1 & sensors & n2 & io & w2 & proc
        & (_ & _ & _ & _ & Hio & _) & Hself & _).
  destruct (_get_io_data_returns _ _ _ _ _ Hio) as (disk & net & Hdisk & Hnet & Hw2 & _).
  exists disk, net. rewrite Hself, Hw2. done.
Qed.

Lemma successful_call_advances_rate_state_witness :
  let w := mkWorld baseline 0 in
  rate_state (self (snd (try_body host_disk_scenario w)))
  = ({| read_bytes := 3048000; write_bytes := 500000 |}, quiet_net, 101).
Proof.
  intros w.
  destruct (successful_call_advances_rate_state host_disk_scenario w
              (returned (fst (try_body host_disk_scenario w)))
              (snd (try_body host_disk_scenario w)))
    as (disk & net & [= <-] & [= <-] & ->).
  - apply returned_eta. vm_compute. reflexivity.
  - reflexivity.
Defined.



(** Every attribute of the cached static facts that is not overwritten by a
    sampled attribute appears in a successful snapshot unchanged; for a
    collector built by the constructor these are all six static
    attributes. *)
Theorem static_facts_copied_verbatim env w d w' :
  try_body env w = (Returns d, w') ->
  (forall k, k ∉ sampled_keys -> d !! k = system_info (self w) !! k) /\
  (forall env0, __init__ env0 = Returns (self w) ->
     forall k, k ∈ static_keys ->
       d !! k = system_info (self w) !! k /\ is_Some (d !! k)).
Proof.
  destruct w as [s n]. intros Hrun.
  destruct (try_body_lookup _ _ _ _ _ Hrun)
    as (? & ? & ? & ? & ? & ? & ? & ? & ? & _ & _ & _ & _ & _ & _ & _ & _ & _ & L).
  cbn [self]. split; [exact L |].
  intros env0 Hinit k Hk.
  assert (static_keys ## sampled_keys) as D
    by (apply (bool_decide_unpack _); vm_compute; exact I).
  rewrite L by (intros Hs; exact (D k Hk Hs)).
  split; [reflexivity |].
  apply elem_of_dom. by rewrite (__init___keys _ _ Hinit).
Qed.

Lemma static_facts_copied_verbatim_witness :
  let w := mkWorld constructed 0 in
  returned (fst (try_body host_with_gpu w)) !! "Boot Time"
  = system_info constructed !! "Boot Time".
Proof.
  intros w.
  destruct (static_facts_copied_verbatim host_with_gpu w
              (returned (fst (try_body host_with_gpu w)))
              (snd (try_body host_with_gpu w))) as [_ H].
  - apply returned_eta. vm_compute. reflexivity.
  - destruct (H host_disk_scenario) with (k := "Boot Time") as [Hk _].
    + vm_compute. reflexivity.
    + apply (bool_decide_unpack _). vm_compute. exact I.
    + exact Hk.
Defined.

(** ** Sensors *)

Lemma Qmax'_spec (a b : Q) :
  a <= Qmax' a b /\ b <= Qmax' a b /\ (Qmax' a b = a \/ Qmax' a b = b).
Proof.
  unfold Qmax'. destruct (Qlt_bool a b) eqn:E.
  - apply Qlt_bool_iff in E. repeat split; [lra | lra | by right].
  - apply Qlt_bool_false in E. repeat split; [lra | lra | by left].
Qed.

(** A running maximum over the entries [keep] selects, started at [init]. *)
Lemma fold_max_spec (keep : shwtemp -> bool) (entries : list shwtemp) (init : Q) :
  let r := fold_left (fun acc e => if keep e then Qmax' acc (current e) else acc)
                     entries init in
  init <= r /\
  (forall e, In e entries -> keep e = true -> current e <= r) /\
  (r = init \/ exists e, In e entries /\ keep e = true /\ r = current e).
Proof.
  revert init. induction entries as [| e0 rest IH]; intros init; cbn [fold_left].
  - repeat split; [lra | intros e [] | by left].
  - destruct (keep e0) eqn:Hkeep.
    + destruct (IH (Qmax' init (current e0))) as (Hge & Hall & Hwit).
      destruct (Qmax'_spec init (current e0)) as (Ha & Hb & Hc).
      cbv zeta in *. repeat split.
      * lra.
      * intros e [<- | Hin] Hk; [lra | by apply Hall].
      * destruct Hwit as [-> | (e & Hin & Hk & ->)].
        -- destruct Hc as [-> | ->]; [by left |].
           right. exists e0. repeat split; [by left | done].
        -- right. exists e. repeat split; [by right | done].
    + destruct (IH init) as (Hge & Hall & Hwit). cbv zeta in *. repeat split.
      * exact Hge.
      * intros e [<- | Hin] Hk; [congruence | by apply Hall].
      * destruct Hwit as [-> | (e & Hin & Hk & ->)]; [by left |].
        right. exists e. repeat split; [by right | done].
Qed.

(** The CPU temperature reading is never negative.  When the host lists
    [coretemp], it is the largest reading among the entries labelled [CPU] or
    [Core], or [0] if there is none or none is positive, and [cpu_thermal]
    is not consulted; only without [coretemp] is it the largest
    [cpu_thermal] reading. *)
Theorem cpu_temp_reading_is_maximum (temps : gmap string (list shwtemp)) :
  let r := cpu_temp_reading temps in
  0 <= r /\
  (forall entries, temps !! "coretemp" = Some entries ->
     (forall e, In e entries -> cpu_label e = true -> current e <= r) /\
     (r = 0 \/ exists e, In e entries /\ cpu_label e = true /\ r = current e)) /\
  (temps !! "coretemp" = None ->
   forall entries, temps !! "cpu_thermal" = Some entries ->
     (forall e, In e entries -> current e <= r) /\
     (r = 0 \/ exists e, In e entries /\ r = current e)) /\
  (temps !! "coretemp" = None -> temps !! "cpu_thermal" = None -> r = 0).
Proof.
  cbv zeta. unfold cpu_temp_reading.
  destruct (temps !! "coretemp") as [core |] eqn:Hcore.
  - pose proof (fold_max_spec cpu_label core 0) as (Hge & Hall & Hwit).
    cbv zeta in *. change (fold_left _ core 0) with (coretemp_max core) in *.
    split; [exact Hge |]. split; [| split; intros; discriminate].
    intros entries [= <-]. split; [exact Hall |].
    destruct Hwit as [-> | Hwit]; [by left | by right].
  - destruct (temps !! "cpu_thermal") as [thermal |] eqn:Hthermal.
    + pose proof (fold_max_spec (fun _ => true) thermal 0) as (Hge & Hall & Hwit).
      cbv zeta in *. change (fold_left _ thermal 0) with (thermal_max thermal) in *.
      split; [exact Hge |]. split; [intros; discriminate |].
      split; [| intros; discriminate].
      intros _ entries [= <-]. split; [intros e He; by apply Hall |].
      destruct Hwit as [-> | (e & He & _ & ->)]; [by left |].
      right. by exists e.
    + repeat split; try (intros; discriminate); try reflexivity; lra.
Qed.



(** ** GPU readings *)



(** ** Process enumeration *)

Lemma readable_infos (procs : list (outcome proc_info)) :
  (forall e, In (Raises e) procs -> skipped (exn_cls e) = true) ->
  readable procs = Returns (infos procs).
Proof.
  induction procs as [| [info | e] rest IH]; intros Hskip; [reflexivity | |].
  - cbn [readable]. rewrite IH by (intros e He; apply Hskip; by right). reflexivity.
  - cbn [readable]. rewrite (Hskip e) by (by left).
    rewrite IH by (intros e' He; apply Hskip; by right). reflexivity.
Qed.

(** The loop over the processes keeps, in order, the [info] of every entry
    that could be read and passes over entries that raise [NoSuchProcess],
    [AccessDenied] or [ZombieProcess]; an entry raising anything else ends
    the loop with that error. *)
Theorem readable_skips_vanished_processes (procs : list (outcome proc_info)) :
  ((forall e, In (Raises e) procs -> skipped (exn_cls e) = true) ->
   readable procs = Returns (infos procs)) /\
  (forall before e after,
     procs = (before ++ Raises e :: after)%list ->
     (forall e', In (Raises e') before -> skipped (exn_cls e') = true) ->
     skipped (exn_cls e) = false ->
     readable procs = Raises e).
Proof.
  split; [apply readable_infos |].
  intros before. revert procs.
  induction before as [| [info | e0] before IH]; intros procs e after -> Hbefore He.
  - cbn. by rewrite He.
  - cbn [app readable].
    rewrite (IH _ e after eq_refl) by (try done; intros e' H; apply Hbefore; by right).
    reflexivity.
  - cbn [app readable]. rewrite (Hbefore e0) by (by left).
    apply (IH _ e after eq_refl); [| done]. intros e' H. apply Hbefore. by right.
Qed.

Lemma keyed_returns (ps : list proc_info) :
  (forall p, In p ps -> is_Some (cpu_percent p)) -> is_returns (keyed ps) = true.
Proof.
  induction ps as [| p ps IH]; intros Hall; [reflexivity |].
  cbn [keyed]. unfold_outcome. unfold cpu_key.
  destruct (Hall p) as [c Hc]; [by left |]. rewrite Hc. unfold_outcome.
  specialize (IH (fun q Hq => Hall q (or_intror Hq))).
  destruct (keyed ps); [reflexivity | discriminate].
Qed.

(** The [try] block of the process stage selects no process when none could
    be read, or when the readable ones all have a CPU percentage and none is
    above zero. *)
Theorem top_cpu_proc_try_selects_none env procs :
  psutil_process_iter env = Returns procs ->
  (forall e, In (Raises e) procs -> skipped (exn_cls e) = true) ->
  (forall p, In p (infos procs) -> exists c, cpu_percent p = Some c /\ c <= 0) ->
  top_cpu_proc_try env = Returns None.
Proof.
  intros Hiter Hskip Hidle. unfold top_cpu_proc_try. rewrite Hiter. unfold_outcome.
  rewrite (readable_infos procs Hskip).
  destruct (infos procs) as [| p0 rest] eqn:Hinfos; [reflexivity |].
  pose proof (keyed_returns (p0 :: rest)) as Hkeyed.
  destruct (keyed (p0 :: rest)) as [ks | e] eqn:Hks.
  2: { cbn [is_returns] in Hkeyed. enough (false = true) by discriminate.
       apply Hkeyed. intros p Hp. destruct (Hidle p Hp) as (c & -> & _). by eexists. }
  destruct (keyed_spec _ _ Hks) as [Hsound _].
  pose proof (sorted_desc_head ks) as Hhead.
  destruct (sorted_desc ks) as [| [c p] t]; [reflexivity |].
  destruct Hhead as [Hin _]. destruct (Hsound _ _ Hin) as [Hp Hc].
  destruct (Hidle p Hp) as (c' & Hc' & Hle).
  assert (c' = c) as -> by congruence.
  apply Qlt_bool_false in Hle. by rewrite Hle.
Qed.

Lemma top_cpu_proc_try_selects_none_witness :
  top_cpu_proc_try host_idle = Returns None.
Proof.
  apply (top_cpu_proc_try_selects_none host_idle idle_processes).
  - reflexivity.
  - intros e [H | [H | [H | []]]]; try discriminate H. injection H as <-. reflexivity.
  - intros p [<- | [<- | []]]; (exists 0; split; [reflexivity | discriminate]).
Defined.

Lemma top_cpu_proc_try_is_maximal_witness :
  exists p c,
    In p (infos two_processes) /\ cpu_percent p = Some c /\ 0 < c /\
    (forall p' c', In p' (infos two_processes) -> cpu_percent p' = Some c' -> c' <= c).
Proof.
  destruct (top_cpu_proc_try_is_maximal host_disk_scenario two_processes
              (infos two_processes)
              (VFStr [Lit "python"; Lit " ("; Num (PFloat 12.5); Lit "%)"]))
    as (p & c & Hin & Hc & Hpos & _ & Hmax).
  - reflexivity.
  - reflexivity.
  - reflexivity.
  - exists p, c. repeat split; assumption.
Defined.

(** ** Saturation and purity *)









(** ** Construction *)

(** The constructor succeeds exactly when its four queries return.  The
    collector it builds has the counters and the time just read as its
    baseline, the six static attributes cached, the boot time among them, and
    ["Unknown Processor"] as CPU model when the platform reports an empty
    processor name. *)
Theorem constructor_baseline env :
  is_returns (__init__ env)
  = is_returns (psutil_net_io_counters env) && is_returns (psutil_disk_io_counters env)
    && is_returns (psutil_boot_time env) && is_returns (psutil_virtual_memory env) /\
  (forall s, __init__ env = Returns s ->
     psutil_net_io_counters env = Returns (last_net_io s) /\
     psutil_disk_io_counters env = Returns (last_disk_io s) /\
     last_call_time s = time_time env /\
     dom (system_info s) = static_keys /\
     system_info s !! "Boot Time" = Some (VStr (system_boot_time s)) /\
     (platform_processor env = "" ->
      system_info s !! "CPU Model (Sim)" = Some (VStr "Unknown Processor")) /\
     (platform_processor env <> "" ->
      system_info s !! "CPU Model (Sim)" = Some (VStr (platform_processor env)))).
Proof.
  unfold __init__, _get_static_system_info. unfold_outcome.
  destruct (psutil_net_io_counters env) as [net | e];
    [| split; [reflexivity | intros; discriminate]].
  destruct (psutil_disk_io_counters env) as [disk | e];
    [| split; [reflexivity | intros; discriminate]].
  destruct (psutil_boot_time env) as [boot | e];
    [| split; [reflexivity | intros; discriminate]].
  destruct (psutil_virtual_memory env) as [vm | e];
    [| split; [reflexivity | intros; discriminate]].
  split; [reflexivity |]. intros s [= <-].
  cbn [last_net_io last_disk_io last_call_time system_info system_boot_time].
  do 3 (split; [reflexivity |]).
  split; [rewrite !dom_insert_L, dom_empty_L; reflexivity |].
  map_lookup. split; [reflexivity |].
  split; intros Hproc.
  - rewrite Hproc. reflexivity.
  - apply String.eqb_neq in Hproc. rewrite Hproc. reflexivity.
Qed.

(** * Properties of the consumers *)

(** ** Export to CSV *)

Lemma all_keys_elem (data : list (gmap string pyval)) (k : string) :
  k ∈ all_keys data <-> exists row, row ∈ data /\ k ∈ dom row.
Proof.
  unfold all_keys. rewrite sorting.merge_sort_Permutation, elem_of_elements, elem_of_union_list.
  split.
  - intros (X & HX & Hk). apply list_elem_of_fmap in HX as (row & -> & Hrow). eauto.
  - intros (row & Hrow & Hk). exists (dom row). split; [| done].
    apply list_elem_of_fmap. eauto.
Qed.

Lemma writerows_returns (names : list string) (data : list (gmap string pyval)) :
  (forall row k, row ∈ data -> k ∈ dom row -> k ∈ names) ->
  writerows names data = Returns (cells names <$> data).
Proof.
  induction data as [| row rest IH]; intros Hall; [reflexivity |].
  cbn [writerows]. unfold_outcome. unfold writerow.
  rewrite bool_decide_eq_true_2.
  - unfold_outcome. rewrite IH; [reflexivity |].
    intros r k Hr. apply Hall. by right.
  - intros k Hk. apply elem_of_list_to_set. apply (Hall row); [by left | done].
Qed.

(** Exporting writes nothing for an empty history, even where the file
    could not be opened.  For a non-empty history and a file that opens, the
    export never fails on the rows: the header is the sorted, duplicate-free
    list of every key that occurs in some snapshot, there is one row per
    snapshot in order, and each row has one cell per header column holding
    the snapshot's value, or the empty string where the snapshot lacks the
    key. *)
Theorem csv_export_header_and_rows (open_file : outcome unit)
        (data : list (gmap string pyval)) :
  save_data_to_csv open_file [] = Returns None /\
  (data <> [] ->
   (forall e, open_file = Raises e -> save_data_to_csv open_file data = Raises e) /\
   (open_file = Returns tt ->
    exists file,
      save_data_to_csv open_file data = Returns (Some file) /\
      Sorted.Sorted String.le (fieldnames file) /\
      NoDup (fieldnames file) /\
      (forall k, k ∈ fieldnames file <-> exists row, row ∈ data /\ k ∈ dom row) /\
      csv_rows file = cells (fieldnames file) <$> data /\
      (forall cs, cs ∈ csv_rows file -> length cs = length (fieldnames file)) /\
      (forall row j k, row ∈ data -> fieldnames file !! j = Some k ->
         cells (fieldnames file) row !! j
         = Some (match row !! k with Some v => v | None => VStr "" end)))).
Proof.
  split; [reflexivity |]. intros Hne.
  destruct data as [| row0 rest]; [done |]. split.
  - intros e ->. reflexivity.
  - intros ->. cbn [save_data_to_csv]. unfold_outcome.
    rewrite writerows_returns
      by (intros row k Hrow Hk; apply all_keys_elem; eauto).
    eexists. split; [reflexivity |]. cbn [fieldnames csv_rows].
    split; [apply sorting.Sorted_merge_sort; apply _ |].
    split.
    { unfold all_keys. rewrite sorting.merge_sort_Permutation. apply NoDup_elements. }
    split; [apply all_keys_elem |]. split; [reflexivity |]. split.
    + intros cs Hcs. apply list_elem_of_fmap in Hcs as (row & -> & _).
      unfold cells. by rewrite length_fmap.
    + intros row j k _ Hj. unfold cells. rewrite list_lookup_fmap, Hj. reflexivity.
Qed.

Lemma csv_export_header_and_rows_witness :
  exists file,
    save_data_to_csv (Returns tt) mixed_history = Returns (Some file) /\
    fieldnames file = ["CPU Usage (%)"; "GPU Usage (%)"; "Timestamp"].
Proof.
  destruct (csv_export_header_and_rows (Returns tt) mixed_history) as [_ H].
  destruct H as [_ H]; [discriminate |].
  destruct (H eq_refl) as (file & Hfile & _).
  exists file. split; [exact Hfile |].
  vm_compute in Hfile. injection Hfile as <-. reflexivity.
Defined.

(** The header depends only on which keys occur, not on the order or the
    number of the snapshots; for a history whose snapshots all have the key
    set of its first one (as the snapshots of one collector do), the header
    is that snapshot's sorted keys and no cell is a filler. *)
Theorem csv_export_uniform_history (first : gmap string pyval)
        (rest : list (gmap string pyval)) :
  (forall row, row ∈ rest -> dom row = dom first) ->
  all_keys (first :: rest) = all_keys [first] /\
  (forall row k, row ∈ first :: rest -> k ∈ all_keys (first :: rest) ->
     is_Some (row !! k)).
Proof.
  intros Hsame.
  assert ((⋃ (dom <$> first :: rest) : gset string) = dom first) as Hunion.
  { apply set_eq. intros k. rewrite elem_of_union_list. split.
    - intros (X & HX & Hk). apply list_elem_of_fmap in HX as (row & -> & Hrow).
      apply elem_of_cons in Hrow as [-> | Hrow]; [done |]. by rewrite <- (Hsame row).
    - intros Hk. exists (dom first). split; [| done].
      apply list_elem_of_fmap. exists first. split; [done | by left]. }
  split.
  - unfold all_keys. rewrite Hunion. f_equal. f_equal.
    cbn. by rewrite (right_id_L ∅ (∪)).
  - intros row k Hrow Hk. apply elem_of_dom.
    apply all_keys_elem in Hk as (row' & Hrow' & Hk).
    assert (forall r, r ∈ first :: rest -> dom r = dom first) as Hall.
    { intros r [-> | Hr]%elem_of_cons; [done | by apply Hsame]. }
    rewrite (Hall row Hrow). by rewrite <- (Hall row' Hrow').
Qed.

Lemma csv_export_uniform_history_witness :
  all_keys [scenario_data; scenario_data] = all_keys [scenario_data].
Proof.
  apply (csv_export_uniform_history scenario_data [scenario_data]).
  intros row Hrow. apply list_elem_of_singleton in Hrow. by subst.
Defined.

(** ** The performance tree *)

(** [tree_rows] lists no attribute twice, so it stands for the dictionary
    the source keeps. *)
Lemma tree_rows_NoDup : NoDup tree_rows.
Proof. apply (bool_decide_unpack _). vm_compute. exact I. Qed.

Lemma unmatched_rows_spec (attr : string) :
  attr ∈ tree_rows -> (attr ∈ unmatched_rows <-> attr ∉ documented_keys).
Proof.
  intros Hin.
  assert (Forall (fun a => bool_decide (a ∈ unmatched_rows)
                           = negb (bool_decide (a ∈ documented_keys))) tree_rows) as H.
  { apply (bool_decide_unpack _). vm_compute. exact I. }
  rewrite Forall_forall in H. specialize (H attr Hin).
  split; intros Hx.
  - rewrite (bool_decide_eq_true_2 _ Hx) in H. symmetry in H.
    apply negb_true_iff in H. by apply bool_decide_eq_false_1 in H.
  - destruct (decide (attr ∈ unmatched_rows)) as [Hu | Hu]; [exact Hu | exfalso].
    rewrite (bool_decide_eq_false_2 _ Hu), (bool_decide_eq_false_2 _ Hx) in H.
    discriminate H.
Qed.

(** For a successful snapshot of a collector built by the constructor, the
    tree gets one row per listed attribute, in order.  A row whose attribute
    is a key of the snapshot shows the snapshot's value; the rows of the
    eight derived indicators, listed with a unit suffix the snapshot keys do
    not have, and the row ["CPU Interrupt Time (%)"] show ["N/A"]. *)
Theorem tree_rows_of_a_snapshot env0 env w d w' :
  __init__ env0 = Returns (self w) ->
  try_body env w = (Returns d, w') ->
  exists rows,
    _update_perf_tree d = Rows rows /\
    (fun r => fst (fst r)) <$> rows = tree_rows /\
    (forall attr value t, (attr, value, t) ∈ rows ->
       (attr ∈ unmatched_rows -> value = VStr "N/A") /\
       (attr ∉ unmatched_rows -> d !! attr = Some value) /\
       t = row_tag attr value).
Proof.
  intros Hinit Hrun.
  destruct (try_body_returns _ _ _ _ Hrun) as (Hdom & _ & _).
  rewrite (__init___keys _ _ Hinit) in Hdom. fold documented_keys in Hdom.
  unfold _update_perf_tree.
  assert (d !! "Error" = None) as ->.
  { apply not_elem_of_dom. rewrite Hdom.
    apply (bool_decide_unpack _). vm_compute. exact I. }
  eexists. split; [reflexivity |]. split.
  - rewrite <- list_fmap_compose. apply list_fmap_id.
  - intros attr value t Hrow.
    apply list_elem_of_fmap in Hrow as (a & [= -> -> ->] & Ha).
    pose proof (unmatched_rows_spec a Ha) as Hspec. rewrite <- Hdom in Hspec.
    unfold dict_get. repeat split.
    + intros Hu. apply Hspec in Hu. apply not_elem_of_dom in Hu. by rewrite Hu.
    + intros Hu. destruct (d !! a) as [v |] eqn:Hv; [reflexivity |].
      exfalso. apply Hu, Hspec. by apply not_elem_of_dom.
Qed.

Lemma tree_rows_of_a_snapshot_witness :
  let w := mkWorld constructed 0 in
  exists rows,
    _update_perf_tree (returned (fst (try_body host_with_gpu w))) = Rows rows /\
    (fun r => fst (fst r)) <$> rows = tree_rows.
Proof.
  intros w.
  destruct (tree_rows_of_a_snapshot host_disk_scenario host_with_gpu w
              (returned (fst (try_body host_with_gpu w)))
              (snd (try_body host_with_gpu w))) as (rows & Hrows & Hattrs & _).
  - vm_compute. reflexivity.
  - apply returned_eta. vm_compute. reflexivity.
  - exists rows. split; [exact Hrows | exact Hattrs].
Defined.

(** A row is tagged as high usage exactly when its value is a number and
    either the attribute is the CPU, memory or GPU usage and the value is
    above [80], or the attribute is the CPU temperature and the value is above
    [85]; a value of exactly [80] (or [85]) and a value that is a string are
    not tagged. *)
Theorem high_usage_tag (attr : string) (value : pyval) :
  row_tag attr value = HighUsage <->
  exists n, value = VNum n /\
    ((attr ∈ ["CPU Usage (%)"; "Memory Usage (%)"; "GPU Usage (%)"] /\ 80 < num_val n)
     \/ (attr = "CPU Temp (°C)" /\ 85 < num_val n)).
Proof.
  unfold row_tag. split.
  - destruct (py_in "Flux" attr || py_in "Transit" attr || py_in "Circuitry" attr
              || py_in "Pulses" attr || py_in "Hexadecimal" attr); [discriminate |].
    destruct value as [| n | s | ps]; cbn [is_number exceeds];
      rewrite ?andb_false_r; try discriminate.
    case_bool_decide as Hattr; cbn [andb].
    + destruct (Qlt_bool 80 (num_val n)) eqn:E80.
      * intros _. exists n. split; [done |]. left. split; [done |].
        by apply Qlt_bool_iff.
      * destruct (String.eqb_spec attr "CPU Temp (°C)") as [-> | Hne]; cbn [andb].
        -- exfalso. revert Hattr. apply (bool_decide_unpack _). vm_compute. exact I.
        -- discriminate.
    + destruct (String.eqb_spec attr "CPU Temp (°C)") as [-> | Hne]; cbn [andb];
        [| discriminate].
      destruct (Qlt_bool 85 (num_val n)) eqn:E85; [| discriminate].
      intros _. exists n. split; [done |]. right. split; [done |].
      by apply Qlt_bool_iff.
  - intros (n & -> & [[Hattr Hn] | [-> Hn]]); apply Qlt_bool_iff in Hn.
    + assert (py_in "Flux" attr || py_in "Transit" attr || py_in "Circuitry" attr
              || py_in "Pulses" attr || py_in "Hexadecimal" attr = false) as ->.
      { repeat (apply elem_of_cons in Hattr as [-> | Hattr]; [reflexivity |]).
        by apply elem_of_nil in Hattr. }
      rewrite bool_decide_eq_true_2 by done. cbn [is_number exceeds andb].
      by rewrite Hn.
    + cbn [is_number exceeds]. rewrite Hn. reflexivity.
Qed.

(** ** The monitoring loop *)

(** One pass of the monitoring loop keeps the interval and stores the
    collector as the sampling call left it.  A failed call adds nothing to the
    history and hands nothing to the GUI; a successful call (of a collector
    whose static facts have no ["Error"] key) appends exactly its snapshot
    and hands it to the GUI.  So the history never holds an error mapping. *)
Theorem monitor_pass_history env start_time end_time app :
  let out := _monitor_loop_body env start_time end_time app in
  let app' := fst (fst out) in
  let shown := snd (fst out) in
  update_interval_ms app' = update_interval_ms app /\
  system_monitor app' = snd (try_body env (system_monitor app)) /\
  (forall e w', try_body env (system_monitor app) = (Raises e, w') ->
     data_history app' = data_history app /\ shown = None) /\
  (forall d w', try_body env (system_monitor app) = (Returns d, w') ->
     "Error" ∉ dom (system_info (self (system_monitor app))) ->
     data_history app' = (data_history app ++ [d])%list /\ shown = Some d) /\
  ((forall d, d ∈ data_history app -> "Error" ∉ dom d) ->
   forall d, d ∈ data_history app' -> "Error" ∉ dom d).
Proof.
  cbv zeta. unfold _monitor_loop_body, get_detailed_system_data.
  destruct (try_body env (system_monitor app)) as [[d | e] w'] eqn:Hrun.
  - destruct (d !! "Error") as [msg |] eqn:Herr; cbn [fst snd update_interval_ms
      system_monitor data_history].
    + do 2 (split; [reflexivity |]). split; [intros; discriminate |]. split; [| done].
      intros d0 w0 [= <- <-] Hstatic. exfalso.
      destruct (try_body_returns _ _ _ _ Hrun) as (Hdom & _ & _).
      assert ("Error" ∈ dom d) as Hin by (apply elem_of_dom; eauto).
      rewrite Hdom in Hin. apply elem_of_union in Hin as [Hin | Hin]; [done |].
      revert Hin. apply (bool_decide_unpack _). vm_compute. exact I.
    + do 2 (split; [reflexivity |]). split; [intros; discriminate |]. split.
      * intros d0 w0 [= <- <-] _. done.
      * intros Hinv d0 Hd0. apply elem_of_app in Hd0 as [Hd0 | Hd0]; [by apply Hinv |].
        apply list_elem_of_singleton in Hd0 as ->. by apply not_elem_of_dom.
  - unfold error_map. rewrite lookup_singleton_eq.
    cbn [fst snd update_interval_ms system_monitor data_history].
    do 2 (split; [reflexivity |]). split; [done |]. split; [intros; discriminate | done].
Qed.

(** The time the loop waits is the interval minus the time the pass took,
    and [0] when the pass took longer than the interval: it is never
    negative and, for a pass that took no negative time, never longer than
    the interval. *)
Theorem sleep_time_bounds env start_time end_time app :
  let sleep_time := snd (_monitor_loop_body env start_time end_time app) in
  let interval := inject_Z (update_interval_ms app) / 1000 in
  let elapsed := end_time - start_time in
  0 <= num_val sleep_time /\
  (elapsed < interval -> sleep_time = PFloat (interval - elapsed)) /\
  (interval <= elapsed -> sleep_time = PInt 0) /\
  (0 <= elapsed -> (0 <= update_interval_ms app)%Z -> num_val sleep_time <= interval).
Proof.
  cbv zeta. unfold _monitor_loop_body.
  destruct (get_detailed_system_data env (system_monitor app)) as [d w'].
  destruct (d !! "Error"); cbn [snd]; unfold py_max; cbn [num_val];
    change (inject_Z 0) with 0;
    set (interval := inject_Z (update_interval_ms app) / 1000);
    set (elapsed := end_time - start_time);
    (assert ((0 <= update_interval_ms app)%Z -> 0 <= interval) as Hnonneg;
     [intros Hz; unfold interval; apply Qle_shift_div_l; [reflexivity |];
      rewrite Qmult_0_l; change 0 with (inject_Z 0); by rewrite <- Zle_Qle |]);
    (destruct (Qlt_bool 0 (interval - elapsed)) eqn:E;
     [apply Qlt_bool_iff in E | apply Qlt_bool_false in E]);
    cbn [num_val]; change (inject_Z 0) with 0;
    repeat split; intros; try reflexivity; try lra;
    try (specialize (Hnonneg ltac:(assumption)); lra).
Qed.

Lemma monitor_pass_history_witness :
  let app := initial_app constructed in
  let out := _monitor_loop_body host_users_fail 101 102 app in
  data_history (fst (fst out)) = [].
Proof.
  intros app out.
  destruct (monitor_pass_history host_users_fail 101 102 app)
    as (_ & _ & Hfail & _).
  destruct (Hfail (mkExn OSError "[Errno 2] No such file or directory: '/var/run/utmp'")
                  (snd (try_body host_users_fail (system_monitor app)))) as [H _].
  - vm_compute. reflexivity.
  - exact H.
Defined.

(** ** The interval setting *)

(** Setting the interval accepts an integer from [5] to [600] seconds and
    stores it in milliseconds; any other integer, and text that is no
    integer, leave the application as it was.  So after any sequence of
    settings the interval is within [5000] and [600000] ms, and the history
    and the collector are untouched. *)
Theorem interval_stays_in_range (entries : list (outcome Z)) (app app' : App) :
  (5000 <= update_interval_ms app <= 600000)%Z ->
  apply_intervals entries app = Returns app' ->
  (5000 <= update_interval_ms app' <= 600000)%Z /\
  data_history app' = data_history app /\
  system_monitor app' = system_monitor app /\
  (forall n, entries = [Returns n] ->
     update_interval_ms app'
     = if (5 <=? n)%Z && (n <=? 600)%Z then (n * 1000)%Z else update_interval_ms app) /\
  (forall e, entries = [Raises e] -> app' = app).
Proof.
  revert app. induction entries as [| entry rest IH]; intros app Hrange.
  - intros [= <-]. repeat split; try lia; intros; discriminate.
  - cbn [apply_intervals]. unfold_outcome.
    destruct (_apply_interval entry app) as [app1 | e] eqn:Hstep; [| discriminate].
    intros Hrest.
    assert ((5000 <= update_interval_ms app1 <= 600000)%Z
            /\ data_history app1 = data_history app
            /\ system_monitor app1 = system_monitor app) as (Hr1 & Hh1 & Hm1).
    { unfold _apply_interval in Hstep. unfold_outcome.
      destruct entry as [n | e].
      - destruct ((5 <=? n)%Z && (n <=? 600)%Z) eqn:Hn; injection Hstep as <-;
          [| done].
        apply andb_prop in Hn as [H5 H600].
        apply Z.leb_le in H5, H600. cbn. repeat split; lia.
      - destruct (exn_cls e); try discriminate. injection Hstep as <-. done. }
    destruct (IH app1 Hr1 Hrest) as (Hr & Hh & Hm & _ & _).
    split; [exact Hr |]. split; [congruence |]. split; [congruence |]. split.
    + intros n [= -> ->]. injection Hrest as <-.
      unfold _apply_interval in Hstep. unfold_outcome.
      destruct ((5 <=? n)%Z && (n <=? 600)%Z); by injection Hstep as <-.
    + intros e [= -> ->]. injection Hrest as <-.
      unfold _apply_interval in Hstep. unfold_outcome.
      destruct (exn_cls e); try discriminate. by injection Hstep as <-.
Qed.

Lemma interval_stays_in_range_witness :
  match apply_intervals [Returns 30%Z; Returns 3%Z;
                         Raises (mkExn ValueError "invalid literal for int()")]
                        (initial_app baseline) with
  | Returns app' => (5000 <= update_interval_ms app' <= 600000)%Z
  | Raises _ => False
  end.
Proof.
  destruct (interval_stays_in_range
              [Returns 30%Z; Returns 3%Z;
               Raises (mkExn ValueError "invalid literal for int()")]
              (initial_app baseline)
              (mkApp (mkWorld baseline 0) [] 30000)) as (Hrange & _).
  - cbn. lia.
  - reflexivity.
  - exact Hrange.
Defined.

(** * Properties of the AI integration *)

Lemma set_api_key_disabled (configure : outcome unit) (key : string)
      (self : GeminiAIIntegration) :
  ai_enabled (snd (set_api_key configure key self)) = false.
Proof.
  unfold set_api_key.
  destruct (negb (String.eqb key "") && negb (String.eqb key "YOUR_GEMINI_API_KEY"));
    reflexivity.
Qed.

(** [set_api_key] never enables the remote model.  An empty key or the
    placeholder clears the object and raises nothing.  Any other key is
    stored, but configuring fails on the unbound name [google] (the module
    imports [google] under the name [genai]), so the call raises
    [ValueError] and leaves the object without a model and disabled. *)
Theorem set_api_key_never_enables (configure : outcome unit) (key : string)
        (self : GeminiAIIntegration) :
  let out := set_api_key configure key self in
  ai_enabled (snd out) = false /\
  model (snd out) = None /\
  (key = "" \/ key = "YOUR_GEMINI_API_KEY" ->
   fst out = None /\ api_key (snd out) = None) /\
  (key <> "" -> key <> "YOUR_GEMINI_API_KEY" ->
   fst out = Some (Raised (mkExn ValueError
     "Invalid Gemini API Key or configuration issue: name 'google' is not defined"))
   /\ api_key (snd out) = Some key).
Proof.
  cbv zeta. unfold set_api_key.
  assert (global_name "google" = inl (NameError "google")) as Hgoogle
    by (vm_compute; reflexivity).
  cbv beta iota zeta delta [mbind mret py_error_bind py_error_ret].
  rewrite Hgoogle.
  destruct (String.eqb_spec key "") as [-> | Hne]; cbn [negb andb fst snd].
  { split; [reflexivity |]. split; [reflexivity |].
    split; [intros _; split; reflexivity | intros Hx; congruence]. }
  destruct (String.eqb_spec key "YOUR_GEMINI_API_KEY") as [-> | Hph];
    cbn [negb andb fst snd].
  { split; [reflexivity |]. split; [reflexivity |].
    split; [intros _; split; reflexivity | intros _ Hx; congruence]. }
  split; [reflexivity |]. split; [reflexivity |]. split.
  - intros [H | H]; congruence.
  - intros _ _. split; reflexivity.
Qed.

Lemma set_api_key_never_enables_witness :
  fst (set_api_key (Returns tt) "AIza-example-key" GeminiAIIntegration__init__)
  = Some (Raised (mkExn ValueError
      "Invalid Gemini API Key or configuration issue: name 'google' is not defined")).
Proof.
  destruct (set_api_key_never_enables (Returns tt) "AIza-example-key"
              GeminiAIIntegration__init__) as (_ & _ & _ & H).
  destruct H as [H _]; [discriminate | discriminate | exact H].
Defined.

Lemma configured_disabled (calls : list (outcome unit * string)) :
  ai_enabled (configured calls) = false.
Proof.
  unfold configured.
  induction calls as [| call calls IH] using rev_ind; [reflexivity |].
  rewrite foldl_app. cbn [foldl].
  apply (set_api_key_disabled (fst call) (snd call)).
Qed.

Lemma py_float_int_default (data : gmap string pyval) (k : string) :
  (numeric_at data k = true ->
   of_outcome (py_float (dict_get data k (VInt 0))) = inr (dict_num data k)) /\
  (numeric_at data k = false ->
   exists err, of_outcome (py_float (dict_get data k (VInt 0))) = inl err).
Proof.
  unfold dict_get, dict_num, numeric_at.
  destruct (data !! k) as [[| n | s | ps] |]; split; intros H;
    try discriminate H; try reflexivity; eexists; reflexivity.
Qed.

Lemma _generate_simulated_response_run (platform_system : string) (draw : Q)
      (system_data : gmap string pyval) :
  is_error (_generate_simulated_response platform_system draw system_data) = true /\
  (metrics_numeric system_data = true ->
   _generate_simulated_response platform_system draw system_data
   = inl (NameError
            (if Qlt_bool 70 (dict_num system_data "CPU Usage (%)")
                && Qlt_bool 80 (dict_num system_data "CPU Temp (°C)")
             then "platform" else "random"))).
Proof.
  unfold _generate_simulated_response, metrics_numeric.
  cbv beta iota zeta delta [mbind mret py_error_bind py_error_ret].
  destruct (py_float_int_default system_data "CPU Usage (%)") as [Hc Hc'].
  destruct (py_float_int_default system_data "Memory Usage (%)") as [Hm Hm'].
  destruct (py_float_int_default system_data "CPU Temp (°C)") as [Ht Ht'].
  destruct (numeric_at system_data "CPU Usage (%)").
  2: { destruct (Hc' eq_refl) as [err ->]. split; [reflexivity | discriminate]. }
  rewrite (Hc eq_refl).
  destruct (numeric_at system_data "Memory Usage (%)").
  2: { destruct (Hm' eq_refl) as [err ->]. split; [reflexivity | discriminate]. }
  rewrite (Hm eq_refl).
  destruct (numeric_at system_data "CPU Temp (°C)").
  2: { destruct (Ht' eq_refl) as [err ->]. split; [reflexivity | discriminate]. }
  rewrite (Ht eq_refl).
  destruct (Qlt_bool 70 _ && Qlt_bool 80 _); split; reflexivity.
Qed.


(** Whatever keys were entered before, asking for an analysis never yields a
    report: the object is disabled, so the local generator runs, and it
    raises. *)
Theorem call_gemini_api_never_reports (calls : list (outcome unit * string))
        (platform_system : string) (draw : Q) (remote : outcome report)
        (system_data : gmap string pyval) :
  call_gemini_api platform_system draw remote (configured calls) system_data
  = _generate_simulated_response platform_system draw system_data /\
  is_error (call_gemini_api platform_system draw remote (configured calls) system_data)
  = true.
Proof.
  unfold call_gemini_api. rewrite configured_disabled. cbn [negb].
  split; [reflexivity |]. apply _generate_simulated_response_run.
Qed.
